(** * goread: the tab state machines (feed tab and category tab)

  A shallow embedding of the two tab variants of the terminal feed reader
  and of the contract they share:

  - [tab]      : internal/model/tab/tab.go
  - [feed]     : the feed tab ([RssFeedTab], with [loadTab])
  - [category] : internal/model/tab/category/category.go

  Go values are passed and returned by value, so [Update] is a function
  from a tab and a message to a tab and a command.  A Go panic (a failed
  type assertion, a negative [strings.Repeat] count) is the [Panic] result.
  Go's [int] is modelled by [Z]: every subtraction of the two tabs sits
  under a guard that keeps it in range (see [loadTab_in_range]). *)

From Stdlib Require Import ZArith List String Bool Lia.
Import ListNotations.
Open Scope string_scope.
Open Scope Z_scope.

Set Implicit Arguments.

(** ** Results of code that may panic *)

Inductive result (A : Type) : Type :=
| Ok (a : A)
| Panic.
Arguments Ok {A} a.
Arguments Panic {A}.

Definition bind {A B : Type} (x : result A) (f : A -> result B) : result B :=
  match x with
  | Ok a => f a
  | Panic => Panic
  end.

Notation "x <- e ;; k" := (bind e (fun x => k))
  (at level 61, e at next level, right associativity).

(** A Go [int] (64 bits). *)
Definition is_int (z : Z) : Prop := - 2 ^ 63 <= z < 2 ^ 63.

(** [len] of a slice. *)
Definition len {A : Type} (l : list A) : Z := Z.of_nat (List.length l).

(** ** Display items

  [simplelist.Item] (the feed tab calls it [ListItem]): what the fetch
  bridge produces.  A [nil] item is [None] wherever one can occur. *)
Record Item : Type := mkItem {
  FilterValue : string;
  Description : string;
  GetContent : string
}.

(** A type assertion [x.(Item)] or a method call on an interface value:
  both panic on the nil interface. *)
Definition assertItem (x : option Item) : result Item :=
  match x with
  | Some it => Ok it
  | None => Panic
  end.

(** ** The tab contract (tab.go) *)

Module tab.

Inductive Type_ : Type := Welcome | Feed | Category.

Record NewTabMessage : Type := mkNewTabMessage {
  Title : string;
  Type_of : Type_
}.

End tab.

(** ** Messages and commands *)

Module backend.

(** Modelled from the spec: [backend.FetchSuccessMessage] is declared in
    the backend package, which is not among the sources.  The spec gives
    the event a title and an ordered sequence of display items
    ([FetchSuccess{title, items}]); the tabs read [Items] only. *)
Record FetchSuccessMessage : Type := mkFetchSuccess {
  Title : string;
  Items : list Item
}.

(** Modelled from the spec: the kinds of item a CRUD request names
    ([kind=Feed] in every request of the category tab). *)
Inductive ItemType : Type := Category | Feed.

End backend.

(** [tea.Msg]: the two message types the tabs tell apart, and anything
  else (a spinner tick, a window size, ...) under a tag. *)
Inductive Msg : Type :=
| FetchSuccessMessage (m : backend.FetchSuccessMessage)
| KeyMsg (key : string)          (* the key is what [msg.String()] returns *)
| OtherMsg (tag : nat).

(** [tea.Cmd], by what the command will deliver. [nil] is the nil command. *)
Inductive Cmd : Type :=
| nil
| NewTab (m : tab.NewTabMessage)                     (* tab.NewTab *)
| NewItem (kind : backend.ItemType) (isNew : bool)
        (path : list string) (fields : list string) (* backend.NewItem *)
| DeleteItem (kind : backend.ItemType) (name : string) (* backend.DeleteItem *)
| ExternalCmd (tag : nat)                            (* a widget's or the reader's command *)
| Batch (a b : Cmd).                                 (* tea.Batch, of two commands *)

Module tabcmd.
(** [tab.NewTab]: the command that asks the main model for a new tab. *)
Definition NewTab (title : string) (tabType : tab.Type_) : Cmd :=
  NewTab (tab.mkNewTabMessage title tabType).
End tabcmd.

(** ** The style package: window size and colours (package globals) *)

Record Style : Type := mkStyle {
  WindowWidth : Z;
  WindowHeight : Z;
  Color1 : string;
  Color2 : string;
  Color3 : string
}.

(** ** The widgets of the bubbles library, at their interface *)

Module bubbles.

Record ItemStyle : Type := mkItemStyle {
  BorderForeground : string;
  Foreground : string;
  Italic : bool
}.

Record ItemStyles : Type := mkItemStyles {
  SelectedTitle : ItemStyle;
  SelectedDesc : ItemStyle
}.

Definition NewDefaultItemStyles : ItemStyles :=
  mkItemStyles (mkItemStyle "" "" false) (mkItemStyle "" "" false).

Record DefaultDelegate : Type := mkDelegate {
  ShowDescription : bool;
  Styles : ItemStyles;
  delegateHeight : Z
}.

Definition NewDefaultDelegate : DefaultDelegate :=
  mkDelegate true NewDefaultItemStyles 2.

(** [list.Model]: the items, the cursor and the size. *)
Record list_Model : Type := mkList {
  items : list Item;
  index : Z;
  delegate : DefaultDelegate;
  width : Z;
  height : Z;
  showHelp : bool;
  showTitle : bool;
  showStatusBar : bool
}.

Definition list_zero : list_Model :=
  mkList [] 0 (mkDelegate false NewDefaultItemStyles 0) 0 0 false false false.

Definition list_New (its : list Item) (d : DefaultDelegate) (w h : Z) : list_Model :=
  mkList its 0 d w h true true true.

Definition SetShowHelp (l : list_Model) (v : bool) : list_Model :=
  mkList (items l) (index l) (delegate l) (width l) (height l)
         v (showTitle l) (showStatusBar l).

Definition SetShowTitle (l : list_Model) (v : bool) : list_Model :=
  mkList (items l) (index l) (delegate l) (width l) (height l)
         (showHelp l) v (showStatusBar l).

Definition SetShowStatusBar (l : list_Model) (v : bool) : list_Model :=
  mkList (items l) (index l) (delegate l) (width l) (height l)
         (showHelp l) (showTitle l) v.

(** [SelectedItem] returns nil when there is no item under the cursor,
    as on an empty list. *)
Definition SelectedItem (l : list_Model) : option Item :=
  if (index l <? 0) || (len (items l) <=? index l) then None
  else nth_error (items l) (Z.to_nat (index l)).

(** [viewport.Model]: size, content and scroll offset. *)
Record viewport_Model : Type := mkViewport {
  vpWidth : Z;
  vpHeight : Z;
  vpContent : string;
  YOffset : Z
}.

Definition viewport_zero : viewport_Model := mkViewport 0 0 "" 0.

Definition viewport_New (w h : Z) : viewport_Model := mkViewport w h "" 0.

Definition SetContent (v : viewport_Model) (s : string) : viewport_Model :=
  mkViewport (vpWidth v) (vpHeight v) s (YOffset v).

Inductive Spinner : Type := Line | Points.

Record spinner_Model : Type := mkSpinner {
  spinnerKind : Spinner;
  spinnerForeground : string;
  frame : Z
}.

Definition spinner_New : spinner_Model := mkSpinner Line "" 0.

(** What the widgets do with a message, and how they and lipgloss draw:
    the library's business, a parameter here. *)
Class Widgets : Type := {
  list_Update : list_Model -> Msg -> list_Model * Cmd;
  viewport_Update : viewport_Model -> Msg -> viewport_Model * Cmd;
  spinner_Update : spinner_Model -> Msg -> spinner_Model * Cmd;
  (* the method value [m.Tick] of a spinner: the tick names the spinner
     it comes from *)
  spinner_Tick : spinner_Model -> Cmd;
  list_View : list_Model -> string;
  viewport_View : viewport_Model -> string;
  spinner_View : spinner_Model -> string;
  (* lipgloss.NewStyle().MarginLeft(3).MarginTop(1).Render *)
  margin_Render : string -> string;
  FocusedStyle_Render : string -> string;
  ColumnStyle_Render : string -> string;
  JoinHorizontal : string -> string -> string;
  lipgloss_Height : string -> Z;
  (* ListItem.WrapDescription, of the list package of this program *)
  WrapDescription : Item -> Z -> Item
}.

End bubbles.

(** [strings.Repeat] panics on a negative count. *)
Fixpoint repeat_string (s : string) (n : nat) : string :=
  match n with
  | O => ""
  | S k => s ++ repeat_string s k
  end.

Definition strings_Repeat (s : string) (count : Z) : result string :=
  if count <? 0 then Panic else Ok (repeat_string s (Z.to_nat count)).

(** ** The feed tab *)

Module feed.
Import bubbles.

Inductive SelectedPane : Type := articlesList | articlesPreview.

Definition SelectedPane_eqb (a b : SelectedPane) : bool :=
  match a, b with
  | articlesList, articlesList => true
  | articlesPreview, articlesPreview => true
  | _, _ => false
  end.

(** [RssFeedTab] *)
Record RssFeedTab : Type := mkTab {
  title : string;
  index : Z;
  loaded : bool;
  loadingSpinner : spinner_Model;
  list : list_Model;
  isViewportOpen : bool;
  viewedItem : option Item;
  content : string;
  viewport : viewport_Model;
  selected : SelectedPane;
  readerFunc : string -> Cmd
}.

(** Field updates ([r.f = v] on the receiver's copy). *)
Definition set_index (r : RssFeedTab) (v : Z) : RssFeedTab :=
  mkTab (title r) v (loaded r) (loadingSpinner r) (list r) (isViewportOpen r)
        (viewedItem r) (content r) (viewport r) (selected r) (readerFunc r).
Definition set_loaded (r : RssFeedTab) (v : bool) : RssFeedTab :=
  mkTab (title r) (index r) v (loadingSpinner r) (list r) (isViewportOpen r)
        (viewedItem r) (content r) (viewport r) (selected r) (readerFunc r).
Definition set_loadingSpinner (r : RssFeedTab) (v : spinner_Model) : RssFeedTab :=
  mkTab (title r) (index r) (loaded r) v (list r) (isViewportOpen r)
        (viewedItem r) (content r) (viewport r) (selected r) (readerFunc r).
Definition set_list (r : RssFeedTab) (v : list_Model) : RssFeedTab :=
  mkTab (title r) (index r) (loaded r) (loadingSpinner r) v (isViewportOpen r)
        (viewedItem r) (content r) (viewport r) (selected r) (readerFunc r).
Definition set_isViewportOpen (r : RssFeedTab) (v : bool) : RssFeedTab :=
  mkTab (title r) (index r) (loaded r) (loadingSpinner r) (list r) v
        (viewedItem r) (content r) (viewport r) (selected r) (readerFunc r).
Definition set_viewport (r : RssFeedTab) (v : viewport_Model) : RssFeedTab :=
  mkTab (title r) (index r) (loaded r) (loadingSpinner r) (list r) (isViewportOpen r)
        (viewedItem r) (content r) v (selected r) (readerFunc r).
Definition set_selected (r : RssFeedTab) (v : SelectedPane) : RssFeedTab :=
  mkTab (title r) (index r) (loaded r) (loadingSpinner r) (list r) (isViewportOpen r)
        (viewedItem r) (content r) (viewport r) v (readerFunc r).

(** [New]: every field not named is the zero value. *)
Definition New (st : Style) (title : string) (index : Z)
           (readerFunc : string -> Cmd) : RssFeedTab :=
  let spin := mkSpinner Points (Color1 st) (frame spinner_New) in
  mkTab title index false spin list_zero false None "" viewport_zero
        articlesList readerFunc.

Definition Title (r : RssFeedTab) : string := title r.
Definition Index (r : RssFeedTab) : Z := index r.
Definition Loaded (r : RssFeedTab) : bool := loaded r.
Definition Type_ (r : RssFeedTab) : tab.Type_ := tab.Feed.
Definition SetIndex (r : RssFeedTab) (index : Z) : RssFeedTab := set_index r index.

Section WithWidgets.
Context {W : Widgets}.

Definition Init (r : RssFeedTab) : Cmd :=
  Batch (readerFunc r (title r)) (spinner_Tick (loadingSpinner r)).

(** [loadTab]: fired when the items are retrieved and the dimensions of
    the window are known.  The loop writes the wrapped items back into the
    slice of the message; the tab keeps them in its list, which is all
    [Update] returns of them. *)
Definition loadTab (st : Style) (r : RssFeedTab) (items : Datatypes.list Item)
  : RssFeedTab :=
  let listWidth := Z.quot (WindowWidth st) 4 in
  let viewportWidth := WindowWidth st - listWidth - 4 in
  let delegateStyles :=
    mkItemStyles (mkItemStyle (Color3 st) (Color3 st) true)
                 (mkItemStyle (Color3 st) (Color2 st) true) in
  let itemDelegate := mkDelegate true delegateStyles 3 in
  let items := map (fun it => WrapDescription it listWidth) items in
  let r := set_list r (list_New items itemDelegate listWidth (WindowHeight st - 5)) in
  let r := set_list r (SetShowHelp (list r) false) in
  let r := set_list r (SetShowTitle (list r) false) in
  let r := set_list r (SetShowStatusBar (list r) false) in
  let r := set_viewport r (viewport_New viewportWidth (WindowHeight st - 5)) in
  set_loaded r true.

(** The tail of [Update]: the message goes to the selected pane. *)
Definition updatePane (r : RssFeedTab) (msg : Msg) : result (RssFeedTab * Cmd) :=
  if SelectedPane_eqb (selected r) articlesList then
    if loaded r then
      let (l, cmd) := list_Update (list r) msg in Ok (set_list r l, cmd)
    else Ok (r, nil)
  else
    let (v, cmd) := viewport_Update (viewport r) msg in Ok (set_viewport r v, cmd).

Definition Update (st : Style) (r : RssFeedTab) (msg : Msg)
  : result (RssFeedTab * Cmd) :=
  match msg with
  | FetchSuccessMessage m =>
      if negb (loaded r) && (0 <? WindowWidth st) && (0 <? WindowHeight st) then
        Ok (loadTab st r (backend.Items m), nil)
      else updatePane r msg
  | KeyMsg key =>
      if String.eqb key "enter" then
        if negb (loaded r) then Ok (r, nil)
        else
          it <- assertItem (SelectedItem (list r)) ;;
          let r := set_viewport r (SetContent (viewport r) (GetContent it)) in
          let r := if negb (isViewportOpen r) then set_isViewportOpen r true else r in
          Ok (r, nil)
      else if String.eqb key "left" || String.eqb key "right" then
        if negb (isViewportOpen r) then Ok (r, nil)
        else
          let r := if SelectedPane_eqb (selected r) articlesPreview
                   then set_selected r articlesList
                   else set_selected r articlesPreview in
          Ok (r, nil)
      else updatePane r msg
  | OtherMsg _ =>
      if negb (loaded r) then
        let (s, cmd) := spinner_Update (loadingSpinner r) msg in
        Ok (set_loadingSpinner r s, cmd)
      else updatePane r msg
  end.

Definition View (st : Style) (r : RssFeedTab) : result string :=
  if negb (loaded r) then
    let loadingMessage :=
      margin_Render (spinner_View (loadingSpinner r) ++ " Loading feed " ++ title r) in
    pad <- strings_Repeat (String (Ascii.ascii_of_nat 10) "")
                          (WindowHeight st - 3 - lipgloss_Height loadingMessage) ;;
    Ok (loadingMessage ++ pad)
  else
    let rssList := list_View (list r) in
    let rssViewport := viewport_View (viewport r) in
    if negb (isViewportOpen r) then Ok (FocusedStyle_Render rssList)
    else if SelectedPane_eqb (selected r) articlesList then
      Ok (JoinHorizontal (FocusedStyle_Render rssList) (ColumnStyle_Render rssViewport))
    else
      Ok (JoinHorizontal (ColumnStyle_Render rssList) (FocusedStyle_Render rssViewport)).

(** The tabs the program can hold: a new tab, and what [Update] and
    [SetIndex] return from one. *)
Inductive reachable : RssFeedTab -> Prop :=
| reach_New st title index readerFunc :
    reachable (New st title index readerFunc)
| reach_Update st r msg r' cmd :
    reachable r -> Update st r msg = Ok (r', cmd) -> reachable r'
| reach_SetIndex r index :
    reachable r -> reachable (SetIndex r index).

End WithWidgets.

End feed.

(** ** The feed tab, the revision that loads inside [Update]

    The first listing of the feed tab has the same [RssFeedTab] and the
    same methods; its [Update] builds the list and the viewport itself,
    from the items as fetched and the default delegate. *)

Module feed_v1.
Import bubbles.

Section WithWidgets.
Context {W : Widgets}.

Definition Update (st : Style) (r : feed.RssFeedTab) (msg : Msg)
  : result (feed.RssFeedTab * Cmd) :=
  match msg with
  | FetchSuccessMessage m =>
      if negb (feed.loaded r) && (0 <? WindowWidth st) && (0 <? WindowHeight st) then
        let listWidth := Z.quot (WindowWidth st) 4 in
        let viewportWidth := WindowWidth st - listWidth - 4 in
        let r := feed.set_list r
                   (list_New (backend.Items m) NewDefaultDelegate listWidth
                             (WindowHeight st - 5)) in
        let r := feed.set_list r (SetShowHelp (feed.list r) false) in
        let r := feed.set_list r (SetShowTitle (feed.list r) false) in
        let r := feed.set_list r (SetShowStatusBar (feed.list r) false) in
        let r := feed.set_viewport r (viewport_New viewportWidth (WindowHeight st - 5)) in
        let r := feed.set_loaded r true in
        Ok (r, nil)
      else feed.updatePane r msg
  | KeyMsg key =>
      if String.eqb key "enter" then
        if negb (feed.loaded r) then Ok (r, nil)
        else
          it <- assertItem (SelectedItem (feed.list r)) ;;
          let r := feed.set_viewport r (SetContent (feed.viewport r) (GetContent it)) in
          let r := if negb (feed.isViewportOpen r)
                   then feed.set_isViewportOpen r true else r in
          Ok (r, nil)
      else if String.eqb key "left" || String.eqb key "right" then
        if negb (feed.isViewportOpen r) then Ok (r, nil)
        else
          let r := if feed.SelectedPane_eqb (feed.selected r) feed.articlesPreview
                   then feed.set_selected r feed.articlesList
                   else feed.set_selected r feed.articlesPreview in
          Ok (r, nil)
      else feed.updatePane r msg
  | OtherMsg _ =>
      if negb (feed.loaded r) then
        let (s, cmd) := spinner_Update (feed.loadingSpinner r) msg in
        Ok (feed.set_loadingSpinner r s, cmd)
      else feed.updatePane r msg
  end.

End WithWidgets.

End feed_v1.

(** ** The list widget of the category tab *)

Module colorscheme.
(** Modelled from the spec: the colour configuration (package
    colorscheme) is not among the sources; the category tab reads two
    colours of it. *)
Record Colorscheme : Type := mkColorscheme {
  Text : string;
  BgDark : string
}.
Definition zero : Colorscheme := mkColorscheme "" "".
End colorscheme.

Module simplelist.

(** Modelled from the spec: the list widget of this program (package
    simplelist) is not among the sources.  The spec describes it as an
    ordered, keyboard-navigable sequence of selectable items that supports
    a programmatic selection index, item replacement and an emptiness
    query: the items and the index are fields, [SetItems] replaces the
    items, [SetIndex] sets the index, [IsEmpty] tests for no item, and
    [SelectedItem] is the item at the index (nil when there is none). *)
Record Model : Type := mkModel {
  colors : colorscheme.Colorscheme;
  title : string;
  height : Z;
  showDesc : bool;
  items : list Item;
  selected : Z
}.

Definition zero : Model := mkModel colorscheme.zero "" 0 false [] 0.

Definition New (colors : colorscheme.Colorscheme) (title : string) (height : Z)
           (showDesc : bool) : Model :=
  mkModel colors title height showDesc [] 0.

Definition SetItems (m : Model) (its : list Item) : Model :=
  mkModel (colors m) (title m) (height m) (showDesc m) its (selected m).

Definition SetHeight (m : Model) (h : Z) : Model :=
  mkModel (colors m) (title m) h (showDesc m) (items m) (selected m).

Definition SetIndex (m : Model) (i : Z) : Model :=
  mkModel (colors m) (title m) (height m) (showDesc m) (items m) i.

Definition Items (m : Model) : list Item := items m.
Definition Index (m : Model) : Z := selected m.

Definition IsEmpty (m : Model) : bool :=
  match items m with
  | [] => true
  | _ :: _ => false
  end.

Definition SelectedItem (m : Model) : option Item :=
  if (selected m <? 0) || (len (items m) <=? selected m) then None
  else nth_error (items m) (Z.to_nat (selected m)).

(** What the widget does with a message, its lookup of an item by its
    shortcut key and its drawing: parameters. *)
Class Behaviour : Type := {
  Update : Model -> Msg -> Model * Cmd;
  GetItem : Model -> string -> option Item;
  View : Model -> string
}.

End simplelist.

(** ** Key bindings (bubbles/key) and the help widget *)

Module key.

Record Binding : Type := mkBinding {
  keys : list string;
  helpKey : string;
  helpDesc : string;
  disabled : bool
}.

(** [key.NewBinding(key.WithKeys(...), key.WithHelp(k, d))] *)
Definition NewBinding (keys : list string) (helpKey helpDesc : string) : Binding :=
  mkBinding keys helpKey helpDesc false.

Definition Enabled (b : Binding) : bool :=
  negb (disabled b) && negb (len (keys b) =? 0).

(** [key.Matches]: the key is one of the keys of an enabled binding. *)
Definition Matches (k : string) (b : Binding) : bool :=
  existsb (fun v => String.eqb k v && Enabled b) (keys b).

End key.

Module help.
Record Model : Type := mkModel {
  ShortDesc : string;
  ShortKey : string;
  Ellipsis : string
}.
Definition New : Model := mkModel "" "" "".
End help.

(** ** The category tab (category.go) *)

Module category.

(** [Keymap] contains the key bindings for this tab. *)
Record Keymap : Type := mkKeymap {
  CloseTab : key.Binding;
  CycleTabs : key.Binding;
  SelectFeed : key.Binding;
  NewFeed : key.Binding;
  EditFeed : key.Binding;
  DeleteFeed : key.Binding
}.

Definition DefaultKeymap : Keymap := {|
  CloseTab := key.NewBinding ["c"; "ctrl+w"] "c/ctrl+w" "Close tab";
  CycleTabs := key.NewBinding ["tab"] "tab" "Cycle tabs";
  SelectFeed := key.NewBinding ["enter"] "enter" "Open";
  NewFeed := key.NewBinding ["n"; "ctrl+n"] "n/ctrl+n" "New";
  EditFeed := key.NewBinding ["e"; "ctrl+e"] "e/ctrl+e" "Edit";
  DeleteFeed := key.NewBinding ["d"; "ctrl+d"] "d/ctrl+d" "Delete"
|}.

Definition ShortHelp (k : Keymap) : list key.Binding :=
  [CloseTab k; CycleTabs k; SelectFeed k; NewFeed k; EditFeed k; DeleteFeed k].

Definition FullHelp (k : Keymap) : list (list key.Binding) :=
  [[CloseTab k; CycleTabs k; SelectFeed k; NewFeed k; EditFeed k; DeleteFeed k]].

(** [Model] contains the state of this tab. *)
Record Model : Type := mkModel {
  colors : colorscheme.Colorscheme;
  width : Z;
  height : Z;
  title : string;
  loaded : bool;
  list : simplelist.Model;
  keymap : Keymap;
  help : help.Model;
  reader : string -> Cmd
}.

Definition set_size (m : Model) (w h : Z) : Model :=
  mkModel (colors m) w h (title m) (loaded m) (list m) (keymap m) (help m) (reader m).
Definition set_loaded (m : Model) (v : bool) : Model :=
  mkModel (colors m) (width m) (height m) (title m) v (list m) (keymap m) (help m)
          (reader m).
Definition set_list (m : Model) (v : simplelist.Model) : Model :=
  mkModel (colors m) (width m) (height m) (title m) (loaded m) v (keymap m) (help m)
          (reader m).

Definition New (colors : colorscheme.Colorscheme) (width height : Z) (title : string)
           (reader : string -> Cmd) : Model :=
  let help := help.mkModel (colorscheme.Text colors) (colorscheme.Text colors)
                           (colorscheme.BgDark colors) in
  mkModel colors width height title false simplelist.zero DefaultKeymap help reader.

Definition Title (m : Model) : string := title m.
Definition Type_ (m : Model) : tab.Type_ := tab.Category.

Definition SetSize (m : Model) (w h : Z) : Model :=
  let m := set_size m w h in
  set_list m (simplelist.SetHeight (list m) (height m)).

Definition Init (m : Model) : Cmd := reader m (title m).

Section WithList.
Context {L : simplelist.Behaviour}.

(** The tail of [Update]: the message goes to the list. *)
Definition updateList (m : Model) (msg : Msg) : result (Model * Cmd) :=
  let (l, cmd) := simplelist.Update (list m) msg in Ok (set_list m l, cmd).

Definition Update (m : Model) (msg : Msg) : result (Model * Cmd) :=
  match msg with
  | FetchSuccessMessage f =>
      let m := if negb (loaded m)
               then set_loaded
                      (set_list m (simplelist.New (colors m) (title m) (height m) false))
                      true
               else m in
      let m := set_list m (simplelist.SetItems (list m) (backend.Items f)) in
      Ok (m, nil)
  | KeyMsg k =>
      if negb (loaded m) then Ok (m, nil)
      else if key.Matches k (SelectFeed (keymap m)) then
        if negb (simplelist.IsEmpty (list m)) then
          it <- assertItem (simplelist.SelectedItem (list m)) ;;
          Ok (m, tabcmd.NewTab (FilterValue it) tab.Feed)
        else Ok (m, nil)
      else if key.Matches k (NewFeed (keymap m)) then
        let feedPath := [title m] in
        Ok (m, NewItem backend.Feed true feedPath [])
      else if key.Matches k (EditFeed (keymap m)) then
        if simplelist.IsEmpty (list m) then Ok (m, nil)
        else
          sel <- assertItem (simplelist.SelectedItem (list m)) ;;
          let feedPath := [title m; FilterValue sel] in
          item <- assertItem (simplelist.SelectedItem (list m)) ;;
          Ok (m, NewItem backend.Feed false feedPath
                         [FilterValue item; Description item])
      else if key.Matches k (DeleteFeed (keymap m)) then
        if negb (simplelist.IsEmpty (list m)) then
          sel <- assertItem (simplelist.SelectedItem (list m)) ;;
          let delItemName := FilterValue sel in
          let itemCount := len (simplelist.Items (list m)) in
          let m := if itemCount =? 1
                   then set_list m (simplelist.SetIndex (list m) 0)
                   else set_list m (simplelist.SetIndex (list m)
                          (Z.rem (simplelist.Index (list m)) (itemCount - 1))) in
          Ok (m, DeleteItem backend.Feed delItemName)
        else updateList m msg
      else
        match simplelist.GetItem (list m) k with
        | Some item => Ok (m, tabcmd.NewTab (FilterValue item) tab.Feed)
        | None => updateList m msg
        end
  | OtherMsg _ => updateList m msg
  end.

Definition View (m : Model) : string :=
  if negb (loaded m) then "Loading..." else simplelist.View (list m).

(** The tabs the program can hold. *)
Inductive reachable : Model -> Prop :=
| reach_New colors width height title reader :
    reachable (New colors width height title reader)
| reach_Update m msg m' cmd :
    reachable m -> Update m msg = Ok (m', cmd) -> reachable m'
| reach_SetSize m width height :
    reachable m -> reachable (SetSize m width height).

End WithList.

End category.

(** ** The contract every tab implements ([tab.Tab]) *)

Class Tab (T : Type) : Type := {
  Title : T -> string;
  Type_ : T -> tab.Type_;
  Init : T -> Cmd;
  Update : Style -> T -> Msg -> result (T * Cmd);
  View : Style -> T -> result string
}.

#[export] Instance feed_Tab {W : bubbles.Widgets} : Tab feed.RssFeedTab := {|
  Title := feed.Title;
  Type_ := feed.Type_;
  Init := feed.Init;
  Update := feed.Update;
  View := feed.View
|}.

#[export] Instance category_Tab {L : simplelist.Behaviour} : Tab category.Model := {|
  Title := category.Title;
  Type_ := category.Type_;
  Init := category.Init;
  Update := fun _ m msg => category.Update m msg;
  View := fun _ m => Ok (category.View m)
|}.


(** * Properties *)

(** Widgets that ignore every message, for running the tabs on concrete
    inputs. *)
Definition idle_widgets : bubbles.Widgets := {|
  bubbles.list_Update := fun l _ => (l, nil);
  bubbles.viewport_Update := fun v _ => (v, nil);
  bubbles.spinner_Update := fun s _ => (s, ExternalCmd 0);
  bubbles.spinner_Tick := fun _ => ExternalCmd 0;
  bubbles.list_View := fun _ => "list";
  bubbles.viewport_View := fun v => bubbles.vpContent v;
  bubbles.spinner_View := fun _ => "...";
  bubbles.margin_Render := fun s => String (Ascii.ascii_of_nat 10) ("   " ++ s);
  bubbles.FocusedStyle_Render := fun s => s;
  bubbles.ColumnStyle_Render := fun s => s;
  bubbles.JoinHorizontal := fun a b => a ++ b;
  bubbles.lipgloss_Height := fun _ => 2;
  bubbles.WrapDescription := fun it _ => it
|}.

Definition idle_list : simplelist.Behaviour := {|
  simplelist.Update := fun l _ => (l, nil);
  simplelist.GetItem := fun _ _ => None;
  simplelist.View := fun _ => "list"
|}.

Definition no_reader : string -> Cmd := fun _ => ExternalCmd 1.

(** A window of 100 columns and 30 rows. *)
Definition window_100_30 : Style := mkStyle 100 30 "c1" "c2" "c3".

Definition item_of (name : string) : Item := mkItem name "" (name ++ " body").

(** A loaded tab with two articles, the first one selected. *)
Definition feed_two_articles : feed.RssFeedTab :=
  @feed.loadTab idle_widgets window_100_30
    (feed.New window_100_30 "A" 0 no_reader) [item_of "a"; item_of "b"].

(** A category tab "News" that is still loading, and the same tab loaded
    with the given feeds, the cursor on the one at [i]. *)
Definition category_news : category.Model :=
  category.New colorscheme.zero 100 30 "News" no_reader.

Definition category_with (names : list string) (i : Z) : category.Model :=
  category.set_list (category.set_loaded category_news true)
    (simplelist.SetIndex
       (simplelist.SetItems (simplelist.New colorscheme.zero "News" 30 false)
                            (map item_of names)) i).

(** A fetch-success event titled "B" with one item. *)
Definition fetch_titled_B : backend.FetchSuccessMessage :=
  backend.mkFetchSuccess "B" [item_of "b"].

(** The loaded tab of two articles with the split open, the list focused. *)
Definition feed_split_open : feed.RssFeedTab :=
  feed.set_isViewportOpen feed_two_articles true.

(** Widgets whose list moves its cursor down on "j" and whose spinner
    steps on every message. *)
Definition moving_widgets : bubbles.Widgets := {|
  bubbles.list_Update := fun l msg =>
    match msg with
    | KeyMsg "j" =>
        (bubbles.mkList (bubbles.items l) (bubbles.index l + 1) (bubbles.delegate l)
                        (bubbles.width l) (bubbles.height l) (bubbles.showHelp l)
                        (bubbles.showTitle l) (bubbles.showStatusBar l), nil)
    | _ => (l, nil)
    end;
  bubbles.viewport_Update := fun v msg =>
    match msg with
    | KeyMsg "j" =>
        (bubbles.mkViewport (bubbles.vpWidth v) (bubbles.vpHeight v)
                            (bubbles.vpContent v) (bubbles.YOffset v + 1), nil)
    | _ => (v, nil)
    end;
  bubbles.spinner_Update := fun s _ =>
    (bubbles.mkSpinner (bubbles.spinnerKind s) (bubbles.spinnerForeground s)
                       (bubbles.frame s + 1), ExternalCmd 0);
  bubbles.spinner_Tick := fun s => ExternalCmd (Z.to_nat (bubbles.frame s));
  bubbles.list_View := fun _ => "list";
  bubbles.viewport_View := fun v => bubbles.vpContent v;
  bubbles.spinner_View := fun _ => "...";
  bubbles.margin_Render := fun s => String (Ascii.ascii_of_nat 10) ("   " ++ s);
  bubbles.FocusedStyle_Render := fun s => s;
  bubbles.ColumnStyle_Render := fun s => s;
  bubbles.JoinHorizontal := fun a b => a ++ b;
  bubbles.lipgloss_Height := fun _ => 2;
  bubbles.WrapDescription := fun it w =>
    mkItem (FilterValue it) (Description it ++ " (wrapped)") (GetContent it)
|}.

(** A list widget that finds the item whose name is the key. *)
Definition shortcut_list : simplelist.Behaviour := {|
  simplelist.Update := fun l _ => (l, nil);
  simplelist.GetItem := fun l k =>
    find (fun it => String.eqb (FilterValue it) k) (simplelist.items l);
  simplelist.View := fun _ => "list"
|}.


(** A window of 100 columns and 4 rows, and one whose size is not known. *)
Definition window_100_4 : Style := mkStyle 100 4 "c1" "c2" "c3".
Definition window_unknown : Style := mkStyle 0 0 "c1" "c2" "c3".

(** The bindings of a keymap that a key matches. *)
Definition matching (km : category.Keymap) (k : string) : list key.Binding :=
  filter (key.Matches k) (category.ShortHelp km).

(** The pane that is not [p]. *)
Definition other_pane (p : feed.SelectedPane) : feed.SelectedPane :=
  match p with
  | feed.articlesList => feed.articlesPreview
  | feed.articlesPreview => feed.articlesList
  end.

(** What holds of the two flags and the focus of every feed tab: the split
    opens on a loaded tab only, and the focus leaves the list only when the
    split is open. *)
Definition feed_wf (r : feed.RssFeedTab) : Prop :=
  (feed.isViewportOpen r = true -> feed.loaded r = true) /\
  (feed.selected r = feed.articlesPreview -> feed.isViewportOpen r = true).

Ltac case_if :=
  match goal with
  | |- context [if ?b then _ else _] => destruct b eqn:?
  | H : context [if ?b then _ else _] |- _ => destruct b eqn:?
  end.

Ltac inv_ok :=
  repeat match goal with
  | H : Ok _ = Ok _ |- _ => inversion H; subst; clear H
  | H : Panic = Ok _ |- _ => discriminate H
  | H : (_, _) = (_, _) |- _ => inversion H; subst; clear H
  end.

(** Case analysis along the branches of an [Update] in a hypothesis. *)
Ltac split_branches H :=
  repeat match type of H with
         | context [if ?b then _ else _] => destruct b eqn:?
         | context [let (_, _) := ?x in _] => destruct x eqn:?
         | context [assertItem ?x] => destruct x eqn:?; cbn [assertItem bind] in H
         | context [match simplelist.GetItem ?l ?k with _ => _ end] =>
             destruct (simplelist.GetItem l k) eqn:?
         end.

Section FeedLemmas.
Context {W : bubbles.Widgets}.

Lemma loadTab_in_range (st : Style) :
  is_int (WindowWidth st) -> is_int (WindowHeight st) ->
  0 < WindowWidth st -> 0 < WindowHeight st ->
  is_int (Z.quot (WindowWidth st) 4) /\
  is_int (WindowWidth st - Z.quot (WindowWidth st) 4) /\
  is_int (WindowWidth st - Z.quot (WindowWidth st) 4 - 4) /\
  is_int (WindowHeight st - 5).
Proof.
  unfold is_int. intros Hw Hh Hw0 Hh0.
  assert (Hq : 0 <= Z.quot (WindowWidth st) 4 <= WindowWidth st).
  { rewrite Z.quot_div_nonneg by lia.
    split; [apply Z.div_pos; lia|].
    apply Z.div_le_upper_bound; lia. }
  lia.
Qed.

Lemma feed_updatePane_flags (r r' : feed.RssFeedTab) (msg : Msg) (cmd : Cmd) :
  feed.updatePane r msg = Ok (r', cmd) ->
  feed.loaded r' = feed.loaded r /\
  feed.isViewportOpen r' = feed.isViewportOpen r /\
  feed.selected r' = feed.selected r /\
  feed.title r' = feed.title r.
Proof.
  unfold feed.updatePane. intros H.
  destruct (feed.SelectedPane_eqb (feed.selected r) feed.articlesList).
  - destruct (feed.loaded r) eqn:Hl.
    + destruct (bubbles.list_Update (feed.list r) msg) as [l c].
      inv_ok. cbn. auto.
    + inv_ok. auto.
  - destruct (bubbles.viewport_Update (feed.viewport r) msg) as [v c].
    inv_ok. cbn. auto.
Qed.

Lemma feed_updatePane_returns (r : feed.RssFeedTab) (msg : Msg) :
  exists r' cmd, feed.updatePane r msg = Ok (r', cmd).
Proof.
  unfold feed.updatePane.
  destruct (feed.SelectedPane_eqb (feed.selected r) feed.articlesList).
  - destruct (feed.loaded r).
    + destruct (bubbles.list_Update (feed.list r) msg) as [l c]. eauto.
    + eauto.
  - destruct (bubbles.viewport_Update (feed.viewport r) msg) as [v c]. eauto.
Qed.

(** [Update] keeps the title, never clears a flag, and moves the flags and
    the focus within [feed_wf]. *)
Lemma feed_Update_flags (st : Style) (r r' : feed.RssFeedTab) (msg : Msg) (cmd : Cmd) :
  feed.Update st r msg = Ok (r', cmd) ->
  (feed.loaded r = true -> feed.loaded r' = true) /\
  (feed.isViewportOpen r = true -> feed.isViewportOpen r' = true) /\
  (feed_wf r -> feed_wf r') /\
  feed.title r' = feed.title r.
Proof.
  unfold feed_wf. intros H.
  destruct msg as [m | k | tag]; cbn [feed.Update] in H.
  - case_if.
    + inv_ok. cbn. intuition congruence.
    + apply feed_updatePane_flags in H.
      destruct H as (-> & -> & -> & ->). intuition congruence.
  - destruct (String.eqb k "enter").
    + destruct (feed.loaded r) eqn:Hl; cbn [negb] in H.
      * destruct (bubbles.SelectedItem (feed.list r)) as [it|]; cbn in H; [|discriminate].
        destruct (feed.isViewportOpen r) eqn:Ho; cbn in H; inv_ok; cbn;
          intuition congruence.
      * inv_ok. intuition congruence.
    + destruct (String.eqb k "left" || String.eqb k "right")%bool.
      * destruct (feed.isViewportOpen r) eqn:Ho; cbn [negb] in H.
        -- destruct (feed.selected r); cbn in H; inv_ok; cbn; intuition congruence.
        -- inv_ok. intuition congruence.
      * apply feed_updatePane_flags in H.
        destruct H as (-> & -> & -> & ->). intuition congruence.
  - destruct (feed.loaded r) eqn:Hl; cbn [negb] in H.
    + apply feed_updatePane_flags in H.
      destruct H as (-> & -> & -> & ->). intuition congruence.
    + destruct (bubbles.spinner_Update (feed.loadingSpinner r) (OtherMsg tag)) as [s c].
      inv_ok. cbn. intuition congruence.
Qed.

Lemma feed_reachable_wf (r : feed.RssFeedTab) : feed.reachable r -> feed_wf r.
Proof.
  induction 1 as [st t i rf | st r msg r' cmd Hr IH Hu | r i Hr IH].
  - split; cbn; discriminate.
  - apply feed_Update_flags in Hu. tauto.
  - exact IH.
Qed.

(** A tab that is still loading shows no split and has the list focused. *)
Lemma feed_loading_collapsed (r : feed.RssFeedTab) :
  feed.reachable r -> feed.loaded r = false ->
  feed.isViewportOpen r = false /\ feed.selected r = feed.articlesList.
Proof.
  intros Hr Hl. destruct (feed_reachable_wf Hr) as [Ho Hs].
  destruct (feed.isViewportOpen r) eqn:E.
  - specialize (Ho eq_refl). congruence.
  - split; [reflexivity|].
    destruct (feed.selected r); [reflexivity|].
    specialize (Hs eq_refl). discriminate.
Qed.

(** [Update] panics in one case only: "enter" on a loaded tab whose list
    has no selected item. *)
Lemma feed_Update_panics_iff (st : Style) (r : feed.RssFeedTab) (msg : Msg) :
  feed.Update st r msg = Panic <->
  (msg = KeyMsg "enter" /\ feed.loaded r = true /\
   bubbles.SelectedItem (feed.list r) = None).
Proof.
  split.
  - intros H. destruct msg as [m | k | tag]; cbn [feed.Update] in H.
    + case_if; [discriminate|].
      destruct (feed_updatePane_returns r (FetchSuccessMessage m)) as (r' & c & E).
      congruence.
    + destruct (String.eqb_spec k "enter") as [Hk|Hk].
      * subst k. destruct (feed.loaded r); cbn [negb] in H; [|discriminate].
        destruct (bubbles.SelectedItem (feed.list r)); cbn in H; [discriminate|].
        auto.
      * destruct (String.eqb k "left" || String.eqb k "right")%bool.
        -- destruct (negb (feed.isViewportOpen r)); discriminate.
        -- destruct (feed_updatePane_returns r (KeyMsg k)) as (r' & c & E).
           congruence.
    + destruct (negb (feed.loaded r)).
      * destruct (bubbles.spinner_Update (feed.loadingSpinner r) (OtherMsg tag)).
        discriminate.
      * destruct (feed_updatePane_returns r (OtherMsg tag)) as (r' & c & E).
        congruence.
  - intros (-> & Hl & Hs). cbn. rewrite Hl, Hs. reflexivity.
Qed.

(** A fetch-success event on a tab that is still loading, with a window
    of positive size: the tab loads, whatever title the event has. *)
Lemma feed_Update_fetch_loads (st : Style) (r : feed.RssFeedTab)
      (m : backend.FetchSuccessMessage) :
  feed.loaded r = false -> 0 < WindowWidth st -> 0 < WindowHeight st ->
  feed.Update st r (FetchSuccessMessage m) = Ok (feed.loadTab st r (backend.Items m), nil).
Proof.
  intros Hl Hw Hh. cbn [feed.Update]. rewrite Hl.
  apply Z.ltb_lt in Hw, Hh. rewrite Hw, Hh. reflexivity.
Qed.

End FeedLemmas.

(** ** The feed tab: loading *)

(** C1.  A fetch-success event delivered to a feed tab that is still
    loading, when both window dimensions are nonzero, gives a loaded tab
    with the list pane selected and the viewport closed, a list of width
    [WindowWidth / 4] and a viewport of width
    [WindowWidth - WindowWidth / 4 - 4], both of height [WindowHeight - 5];
    when a dimension is zero the tab is returned as it was, still loading.
    The tab is any tab the program can hold and the dimensions are sizes
    (not negative). *)
Theorem feed_fetch_success_loads {W : bubbles.Widgets} (st : Style)
        (r : feed.RssFeedTab) (m : backend.FetchSuccessMessage) :
  feed.reachable r -> feed.loaded r = false ->
  0 <= WindowWidth st -> 0 <= WindowHeight st ->
  (WindowWidth st <> 0 /\ WindowHeight st <> 0 ->
   exists r',
     feed.Update st r (FetchSuccessMessage m) = Ok (r', nil) /\
     feed.loaded r' = true /\
     feed.selected r' = feed.articlesList /\
     feed.isViewportOpen r' = false /\
     bubbles.items (feed.list r') =
       map (fun it => bubbles.WrapDescription it (WindowWidth st / 4)) (backend.Items m) /\
     bubbles.width (feed.list r') = WindowWidth st / 4 /\
     bubbles.vpWidth (feed.viewport r') = WindowWidth st - WindowWidth st / 4 - 4 /\
     bubbles.height (feed.list r') = WindowHeight st - 5 /\
     bubbles.vpHeight (feed.viewport r') = WindowHeight st - 5) /\
  (WindowWidth st = 0 \/ WindowHeight st = 0 ->
   feed.Update st r (FetchSuccessMessage m) = Ok (r, nil)).
Proof.
  intros Hr Hl Hw Hh.
  destruct (feed_loading_collapsed Hr Hl) as [Ho Hs].
  split.
  - intros [Hw0 Hh0].
    exists (feed.loadTab st r (backend.Items m)).
    split; [apply feed_Update_fetch_loads; [assumption | lia | lia]|].
    rewrite <- (Z.quot_div_nonneg (WindowWidth st) 4) by lia.
    cbn. auto 10.
  - intros Hz. cbn [feed.Update]. rewrite Hl. cbn [negb andb].
    assert (E : ((0 <? WindowWidth st) && (0 <? WindowHeight st))%bool = false).
    { destruct Hz as [-> | ->]; [reflexivity|].
      rewrite andb_false_r. reflexivity. }
    rewrite E. unfold feed.updatePane. rewrite Hs, Hl. reflexivity.
Qed.

(** The example of the spec: a window of (100, 30) and a fetch-success
    with five items titled "A" give a list of width 25 and a viewport of
    width 71 (height 25 each). *)
Lemma feed_fetch_success_loads_witness :
  exists r',
    @feed.Update idle_widgets window_100_30
      (feed.New window_100_30 "A" 0 no_reader)
      (FetchSuccessMessage
         (backend.mkFetchSuccess "A"
            [item_of "a"; item_of "b"; item_of "c"; item_of "d"; item_of "e"]))
    = Ok (r', nil) /\
    feed.loaded r' = true /\
    feed.selected r' = feed.articlesList /\
    feed.isViewportOpen r' = false /\
    bubbles.width (feed.list r') = 25 /\
    bubbles.vpWidth (feed.viewport r') = 71 /\
    bubbles.height (feed.list r') = 25 /\
    bubbles.vpHeight (feed.viewport r') = 25.
Proof.
  destruct (@feed_fetch_success_loads idle_widgets window_100_30
              (feed.New window_100_30 "A" 0 no_reader)
              (backend.mkFetchSuccess "A"
                 [item_of "a"; item_of "b"; item_of "c"; item_of "d"; item_of "e"])
              (feed.reach_New window_100_30 "A" 0 no_reader) eq_refl
              ltac:(cbn; lia) ltac:(cbn; lia)) as [Hload _].
  destruct Hload as (r' & Hu & Hl & Hs & Ho & _ & Hlw & Hvw & Hlh & Hvh).
  - cbn. split; discriminate.
  - exists r'. cbn in Hlw, Hvw, Hlh, Hvh. auto 10.
Defined.

(** C3.  A fetch-success event on a loaded feed tab does not load again:
    the tab stays loaded and the items of its list are the ones it had.
    The event goes to the focused pane like any other message; the list
    widget is taken not to touch its items on it. *)
Theorem feed_later_fetch_ignored {W : bubbles.Widgets} (st : Style)
        (r : feed.RssFeedTab) (m : backend.FetchSuccessMessage) :
  (forall l, bubbles.items (fst (bubbles.list_Update l (FetchSuccessMessage m)))
             = bubbles.items l) ->
  feed.loaded r = true ->
  exists r' cmd,
    feed.Update st r (FetchSuccessMessage m) = Ok (r', cmd) /\
    feed.loaded r' = true /\
    bubbles.items (feed.list r') = bubbles.items (feed.list r).
Proof.
  intros Hitems Hl. cbn [feed.Update]. rewrite Hl. cbn [negb andb].
  unfold feed.updatePane. rewrite Hl.
  destruct (feed.SelectedPane_eqb (feed.selected r) feed.articlesList).
  - specialize (Hitems (feed.list r)).
    destruct (bubbles.list_Update (feed.list r) (FetchSuccessMessage m)) as [l c].
    exists (feed.set_list r l), c. cbn in *. auto.
  - destruct (bubbles.viewport_Update (feed.viewport r) (FetchSuccessMessage m)) as [v c].
    exists (feed.set_viewport r v), c. cbn. auto.
Qed.

(** Two fetches in a row: the second leaves the items of the first. *)
Lemma feed_later_fetch_ignored_witness :
  exists r1 r2 cmd,
    @feed.Update idle_widgets window_100_30 (feed.New window_100_30 "A" 0 no_reader)
      (FetchSuccessMessage (backend.mkFetchSuccess "A" [item_of "a"; item_of "b"]))
    = Ok (r1, nil) /\
    @feed.Update idle_widgets window_100_30 r1
      (FetchSuccessMessage (backend.mkFetchSuccess "A" [item_of "z"]))
    = Ok (r2, cmd) /\
    feed.loaded r2 = true /\
    bubbles.items (feed.list r2) = [item_of "a"; item_of "b"].
Proof.
  eexists. 
  destruct (@feed_later_fetch_ignored idle_widgets window_100_30
              (@feed.loadTab idle_widgets window_100_30
                 (feed.New window_100_30 "A" 0 no_reader) [item_of "a"; item_of "b"])
              (backend.mkFetchSuccess "A" [item_of "z"])
              (fun l => eq_refl) eq_refl) as (r2 & cmd & Hu & Hl & Hi).
  exists r2, cmd. split; [reflexivity|]. auto.
Defined.

(** ** The feed tab: the two flags and the panes *)

(** C7.  [Update] never clears a flag: on every tab and every message,
    the tab it returns is loaded if the tab was, and has the viewport open
    if the tab had.  It returns a tab in every case but one, "enter" on a
    loaded tab with no selected item, where it panics. *)
Theorem feed_flags_never_cleared {W : bubbles.Widgets} (st : Style)
        (r : feed.RssFeedTab) (msg : Msg) :
  match feed.Update st r msg with
  | Ok (r', _) =>
      (feed.loaded r = true -> feed.loaded r' = true) /\
      (feed.isViewportOpen r = true -> feed.isViewportOpen r' = true)
  | Panic =>
      msg = KeyMsg "enter" /\ feed.loaded r = true /\
      bubbles.SelectedItem (feed.list r) = None
  end.
Proof.
  destruct (feed.Update st r msg) as [[r' cmd]|] eqn:E.
  - apply feed_Update_flags in E. tauto.
  - apply (proj1 (feed_Update_panics_iff st r msg)). exact E.
Qed.

(** "enter" on a loaded tab, then "right" on the open split: both flags
    stay set. *)
Lemma feed_flags_never_cleared_witness :
  ((feed.loaded feed_two_articles = true ->
    feed.loaded (feed.set_isViewportOpen
                   (feed.set_viewport feed_two_articles
                      (bubbles.SetContent (feed.viewport feed_two_articles) "a body"))
                   true) = true) /\
   (feed.isViewportOpen feed_two_articles = true ->
    feed.isViewportOpen (feed.set_isViewportOpen
                   (feed.set_viewport feed_two_articles
                      (bubbles.SetContent (feed.viewport feed_two_articles) "a body"))
                   true) = true)) /\
  ((feed.loaded (feed.set_isViewportOpen feed_two_articles true) = true ->
    feed.loaded (feed.set_selected (feed.set_isViewportOpen feed_two_articles true)
                   feed.articlesPreview) = true) /\
   (feed.isViewportOpen (feed.set_isViewportOpen feed_two_articles true) = true ->
    feed.isViewportOpen (feed.set_selected (feed.set_isViewportOpen feed_two_articles true)
                   feed.articlesPreview) = true)).
Proof.
  split.
  - exact (@feed_flags_never_cleared idle_widgets window_100_30 feed_two_articles
             (KeyMsg "enter")).
  - exact (@feed_flags_never_cleared idle_widgets window_100_30
             (feed.set_isViewportOpen feed_two_articles true) (KeyMsg "right")).
Defined.

(** C8.  "left" and "right" do nothing while the viewport is closed; once
    it is open each of them moves the focus to the other pane (from the
    list to the preview and back) and changes nothing else. *)
Theorem feed_left_right_toggle {W : bubbles.Widgets} (st : Style)
        (r : feed.RssFeedTab) (k : string) :
  k = "left" \/ k = "right" ->
  (feed.isViewportOpen r = false -> feed.Update st r (KeyMsg k) = Ok (r, nil)) /\
  (feed.isViewportOpen r = true ->
   feed.Update st r (KeyMsg k)
   = Ok (feed.set_selected r (other_pane (feed.selected r)), nil)).
Proof.
  intros Hk.
  assert (E : feed.Update st r (KeyMsg k) =
              if negb (feed.isViewportOpen r) then Ok (r, nil)
              else Ok (feed.set_selected r (other_pane (feed.selected r)), nil)).
  { destruct Hk as [-> | ->]; cbn; destruct (feed.selected r); reflexivity. }
  rewrite E. split; intros ->; reflexivity.
Qed.

(** From the split with the list focused, "right" focuses the preview. *)
Lemma feed_left_right_toggle_witness :
  exists r',
    @feed.Update idle_widgets window_100_30
      (feed.set_isViewportOpen feed_two_articles true) (KeyMsg "right") = Ok (r', nil) /\
    feed.selected r' = feed.articlesPreview /\
    @feed.Update idle_widgets window_100_30 r' (KeyMsg "left")
    = Ok (feed.set_isViewportOpen feed_two_articles true, nil) /\
    @feed.Update idle_widgets window_100_30 feed_two_articles (KeyMsg "right")
    = Ok (feed_two_articles, nil).
Proof.
  destruct (@feed_left_right_toggle idle_widgets window_100_30
              (feed.set_isViewportOpen feed_two_articles true) "right"
              (or_intror eq_refl)) as [_ Hopen].
  destruct (@feed_left_right_toggle idle_widgets window_100_30
              feed_two_articles "right" (or_intror eq_refl)) as [Hclosed _].
  eexists. split; [apply Hopen; reflexivity|].
  split; [reflexivity|]. split; [reflexivity|].
  apply Hclosed. reflexivity.
Defined.

(** C9.  "enter" on a loaded feed tab puts the long-form body of the
    selected item in the viewport and opens the viewport, with the focus
    and the list as they were; "enter" again, after the selection moved to
    another item, replaces the content and leaves the focus alone again;
    "enter" on a tab that is not loaded returns the tab as it was. *)
Theorem feed_enter_opens_preview {W : bubbles.Widgets} (st : Style)
        (r : feed.RssFeedTab) :
  (forall it, feed.loaded r = true ->
     bubbles.SelectedItem (feed.list r) = Some it ->
     exists r',
       feed.Update st r (KeyMsg "enter") = Ok (r', nil) /\
       bubbles.vpContent (feed.viewport r') = GetContent it /\
       feed.isViewportOpen r' = true /\
       feed.loaded r' = true /\
       feed.selected r' = feed.selected r /\
       feed.list r' = feed.list r /\
       forall l2 it2,
         bubbles.SelectedItem l2 = Some it2 ->
         exists r'',
           feed.Update st (feed.set_list r' l2) (KeyMsg "enter") = Ok (r'', nil) /\
           bubbles.vpContent (feed.viewport r'') = GetContent it2 /\
           feed.isViewportOpen r'' = true /\
           feed.selected r'' = feed.selected r) /\
  (feed.loaded r = false -> feed.Update st r (KeyMsg "enter") = Ok (r, nil)).
Proof.
  split.
  - intros it Hl Hs.
    exists (feed.set_isViewportOpen
              (feed.set_viewport r (bubbles.SetContent (feed.viewport r) (GetContent it)))
              true).
    split.
    { cbn. rewrite Hl, Hs. cbn. destruct (feed.isViewportOpen r) eqn:Ho; cbn.
      - destruct r; cbn in *. subst. reflexivity.
      - reflexivity. }
    cbn. repeat (split; [auto|]).
    intros l2 it2 Hs2.
    exists (feed.set_list
              (feed.set_isViewportOpen
                 (feed.set_viewport r (bubbles.SetContent (feed.viewport r) (GetContent it2)))
                 true) l2).
    cbn. rewrite Hl, Hs2. cbn. auto.
  - intros Hl. cbn. rewrite Hl. reflexivity.
Qed.

(** "enter" on the first article, then on the second one. *)
Lemma feed_enter_opens_preview_witness :
  exists r' r'',
    @feed.Update idle_widgets window_100_30 feed_two_articles (KeyMsg "enter")
    = Ok (r', nil) /\
    bubbles.vpContent (feed.viewport r') = "a body" /\
    feed.isViewportOpen r' = true /\
    feed.selected r' = feed.articlesList /\
    @feed.Update idle_widgets window_100_30
      (feed.set_list r' (bubbles.mkList [item_of "a"; item_of "b"] 1
                           bubbles.NewDefaultDelegate 25 25 false false false))
      (KeyMsg "enter") = Ok (r'', nil) /\
    bubbles.vpContent (feed.viewport r'') = "b body" /\
    feed.selected r'' = feed.articlesList.
Proof.
  destruct (@feed_enter_opens_preview idle_widgets window_100_30 feed_two_articles)
    as [Hloaded _].
  destruct (Hloaded (item_of "a") eq_refl eq_refl)
    as (r' & Hu & Hc & Ho & _ & Hs & _ & Hagain).
  destruct (Hagain (bubbles.mkList [item_of "a"; item_of "b"] 1
                      bubbles.NewDefaultDelegate 25 25 false false false)
                   (item_of "b") eq_refl)
    as (r'' & Hu2 & Hc2 & _ & Hs2).
  exists r', r''. cbn in Hc, Hc2, Hs, Hs2. auto 10.
Defined.

(** C10 (the code does not do this).  "enter" on a loaded feed tab whose
    list is empty: the list has no selected item, the type assertion on
    the nil item panics and [Update] returns nothing.  The tab is the one
    a fetch-success with no items leaves. *)
Theorem feed_enter_on_empty_list_panics (W : bubbles.Widgets) :
  let r0 := feed.New window_100_30 "A" 0 no_reader in
  let r1 := feed.loadTab window_100_30 r0 [] in
  feed.reachable r1 /\
  feed.Update window_100_30 r0 (FetchSuccessMessage (backend.mkFetchSuccess "A" []))
  = Ok (r1, nil) /\
  feed.loaded r1 = true /\
  bubbles.items (feed.list r1) = [] /\
  feed.Update window_100_30 r1 (KeyMsg "enter") = Panic.
Proof.
  intros r0 r1.
  assert (Hu : feed.Update window_100_30 r0
                 (FetchSuccessMessage (backend.mkFetchSuccess "A" [])) = Ok (r1, nil))
    by reflexivity.
  split; [|auto].
  eapply feed.reach_Update; [apply feed.reach_New | exact Hu].
Qed.

(** ** The category tab *)

Section CategoryLemmas.
Context {L : simplelist.Behaviour}.

Lemma category_set_list_same (m : category.Model) :
  category.set_list m (category.list m) = m.
Proof. destruct m. reflexivity. Qed.

Lemma category_updateList_fields (m m' : category.Model) (msg : Msg) (cmd : Cmd) :
  category.updateList m msg = Ok (m', cmd) ->
  category.loaded m' = category.loaded m /\
  category.keymap m' = category.keymap m /\
  category.title m' = category.title m.
Proof.
  unfold category.updateList.
  destruct (simplelist.Update (category.list m) msg) as [l c].
  intros H. inv_ok. cbn. auto.
Qed.

(** [Update] keeps the keymap and the title, and a loaded tab loaded. *)
Lemma category_Update_fields (m m' : category.Model) (msg : Msg) (cmd : Cmd) :
  category.Update m msg = Ok (m', cmd) ->
  (category.loaded m = true -> category.loaded m' = true) /\
  category.keymap m' = category.keymap m /\
  category.title m' = category.title m.
Proof.
  intros H. destruct msg as [f | k | tag]; cbn [category.Update] in H.
  - destruct (category.loaded m) eqn:Hl; cbn in H; inv_ok; cbn; auto.
  - destruct (category.loaded m) eqn:Hl; cbn [negb] in H; [|inv_ok; intuition congruence].
    repeat match type of H with
           | context [if ?b then _ else _] => destruct b eqn:?
           | context [assertItem ?x] => destruct x eqn:?; cbn [assertItem bind] in H
           | context [simplelist.GetItem ?l ?k] => destruct (simplelist.GetItem l k) eqn:?
           end;
      try discriminate;
      try (apply category_updateList_fields in H; destruct H as (-> & -> & ->); auto);
      inv_ok; cbn; auto.
  - apply category_updateList_fields in H. destruct H as (-> & -> & ->). auto.
Qed.

Lemma category_reachable_keymap (m : category.Model) :
  category.reachable m -> category.keymap m = category.DefaultKeymap.
Proof.
  induction 1 as [c w h t rd | m msg m' cmd Hr IH Hu | m w h Hr IH].
  - reflexivity.
  - apply category_Update_fields in Hu. destruct Hu as (_ & -> & _). exact IH.
  - exact IH.
Qed.

(** A selected item is an item of a list that is not empty, at an index
    within the list. *)
Lemma simplelist_SelectedItem_Some (l : simplelist.Model) (it : Item) :
  simplelist.SelectedItem l = Some it ->
  simplelist.IsEmpty l = false /\
  0 <= simplelist.Index l < len (simplelist.Items l).
Proof.
  unfold simplelist.SelectedItem, simplelist.IsEmpty, simplelist.Index,
    simplelist.Items, len.
  destruct (simplelist.selected l <? 0) eqn:E1; [discriminate|].
  destruct (Z.of_nat (List.length (simplelist.items l)) <=? simplelist.selected l) eqn:E2;
    [discriminate|].
  cbn [orb]. intros H.
  apply Z.ltb_ge in E1. apply Z.leb_gt in E2.
  split; [|lia].
  destruct (simplelist.items l); [cbn in E2; lia | reflexivity].
Qed.

(** A fetch-success event on a category tab, whatever its title. *)
Lemma category_Update_fetch (m : category.Model) (f : backend.FetchSuccessMessage) :
  category.Update m (FetchSuccessMessage f)
  = Ok (category.set_list
          (if negb (category.loaded m)
           then category.set_loaded
                  (category.set_list m
                     (simplelist.New (category.colors m) (category.title m)
                                     (category.height m) false)) true
           else m)
          (simplelist.SetItems
             (if negb (category.loaded m)
              then simplelist.New (category.colors m) (category.title m)
                                  (category.height m) false
              else category.list m)
             (backend.Items f)), nil).
Proof.
  cbn [category.Update]. destruct (category.loaded m); reflexivity.
Qed.

(** What a fetch-success event does to a category tab. *)
Lemma category_Update_fetch_accepts (m : category.Model)
      (f : backend.FetchSuccessMessage) :
  exists m',
    category.Update m (FetchSuccessMessage f) = Ok (m', nil) /\
    simplelist.Items (category.list m') = backend.Items f /\
    category.loaded m' = true /\
    (category.loaded m = false ->
     category.list m' =
       simplelist.SetItems
         (simplelist.New (category.colors m) (category.title m) (category.height m) false)
         (backend.Items f)) /\
    (category.loaded m = true ->
     category.list m' = simplelist.SetItems (category.list m) (backend.Items f)).
Proof.
  eexists. split; [apply category_Update_fetch|].
  destruct (category.loaded m) eqn:Hl; cbn; rewrite ?Hl; intuition congruence.
Qed.

End CategoryLemmas.

(** C4.  Every fetch-success event replaces the items of a category tab by
    the items of the event, a second one again; the first one builds the
    list widget and sets [loaded], and no message clears [loaded] after
    that. *)
Theorem category_fetch_replaces_items {L : simplelist.Behaviour}
        (m : category.Model) (f : backend.FetchSuccessMessage) :
  exists m',
    category.Update m (FetchSuccessMessage f) = Ok (m', nil) /\
    simplelist.Items (category.list m') = backend.Items f /\
    category.loaded m' = true /\
    (category.loaded m = false ->
     category.list m' =
       simplelist.SetItems
         (simplelist.New (category.colors m) (category.title m) (category.height m) false)
         (backend.Items f)) /\
    (category.loaded m = true ->
     category.list m' = simplelist.SetItems (category.list m) (backend.Items f)) /\
    (forall f2, exists m'',
       category.Update m' (FetchSuccessMessage f2) = Ok (m'', nil) /\
       simplelist.Items (category.list m'') = backend.Items f2 /\
       category.loaded m'' = true) /\
    (forall msg m'' cmd,
       category.Update m' msg = Ok (m'', cmd) -> category.loaded m'' = true).
Proof.
  destruct (category_Update_fetch_accepts m f) as (m' & Hu & Hi & Hl & Hnew & Hold).
  exists m'. repeat (split; [assumption|]).
  split.
  - intros f2.
    destruct (category_Update_fetch_accepts m' f2) as (m'' & Hu2 & Hi2 & Hl2 & _).
    exists m''. auto.
  - intros msg m'' cmd Hu2. apply category_Update_fields in Hu2.
    destruct Hu2 as (Hkeep & _). apply Hkeep, Hl.
Qed.

(** Two fetches with different items on a tab that was loading: the list
    holds the items of the second. *)
Lemma category_fetch_replaces_items_witness :
  exists m1 m2,
    @category.Update idle_list category_news
      (FetchSuccessMessage (backend.mkFetchSuccess "News" [item_of "a"; item_of "b"]))
    = Ok (m1, nil) /\
    simplelist.Items (category.list m1) = [item_of "a"; item_of "b"] /\
    category.loaded m1 = true /\
    @category.Update idle_list m1
      (FetchSuccessMessage (backend.mkFetchSuccess "News" [item_of "c"]))
    = Ok (m2, nil) /\
    simplelist.Items (category.list m2) = [item_of "c"] /\
    category.loaded m2 = true.
Proof.
  destruct (@category_fetch_replaces_items idle_list category_news
              (backend.mkFetchSuccess "News" [item_of "a"; item_of "b"]))
    as (m1 & Hu & Hi & Hl & _ & _ & Hnext & _).
  destruct (Hnext (backend.mkFetchSuccess "News" [item_of "c"]))
    as (m2 & Hu2 & Hi2 & Hl2).
  exists m1, m2. auto 10.
Defined.

(** C5.  Delete on a loaded category tab whose list has [n] items, the
    one at index [i] selected: the command is the delete request for the
    selected item, and the index becomes 0 when [n = 1] and
    [i mod (n - 1)] otherwise; nothing else changes. *)
Theorem category_delete_moves_selection {L : simplelist.Behaviour}
        (m : category.Model) (k : string) (it : Item) :
  category.loaded m = true ->
  category.keymap m = category.DefaultKeymap ->
  k = "d" \/ k = "ctrl+d" ->
  simplelist.SelectedItem (category.list m) = Some it ->
  let n := len (simplelist.Items (category.list m)) in
  let i := simplelist.Index (category.list m) in
  1 <= n /\ 0 <= i < n /\
  category.Update m (KeyMsg k)
  = Ok (category.set_list m
          (simplelist.SetIndex (category.list m)
             (if n =? 1 then 0 else i mod (n - 1))),
        DeleteItem backend.Feed (FilterValue it)).
Proof.
  intros Hl Hk Hkey Hs n i.
  destruct (simplelist_SelectedItem_Some _ Hs) as [He Hi].
  fold n i in Hi. split; [lia|]. split; [exact Hi|].
  assert (Hrem : (if n =? 1 then 0 else Z.rem i (n - 1))
                 = (if n =? 1 then 0 else i mod (n - 1))).
  { destruct (Z.eqb_spec n 1); [reflexivity|].
    apply Z.rem_mod_nonneg; lia. }
  rewrite <- Hrem.
  cbn [category.Update]. rewrite Hl, Hk, He, Hs. cbn [negb].
  destruct Hkey as [-> | ->]; cbn; fold n i; destruct (n =? 1); reflexivity.
Qed.

(** Three feeds with the cursor on the last one: index 0; one feed: index 0;
    three feeds with the cursor on the second one: index 1. *)
Lemma category_delete_moves_selection_witness :
  @category.Update idle_list (category_with ["a"; "b"; "c"] 2) (KeyMsg "d")
  = Ok (category_with ["a"; "b"; "c"] 0, DeleteItem backend.Feed "c") /\
  @category.Update idle_list (category_with ["a"] 0) (KeyMsg "ctrl+d")
  = Ok (category_with ["a"] 0, DeleteItem backend.Feed "a") /\
  @category.Update idle_list (category_with ["a"; "b"; "c"] 1) (KeyMsg "d")
  = Ok (category_with ["a"; "b"; "c"] 1, DeleteItem backend.Feed "b").
Proof.
  split; [|split].
  - exact (proj2 (proj2 (@category_delete_moves_selection idle_list
             (category_with ["a"; "b"; "c"] 2) "d" (item_of "c")
             eq_refl eq_refl (or_introl eq_refl) eq_refl))).
  - exact (proj2 (proj2 (@category_delete_moves_selection idle_list
             (category_with ["a"] 0) "ctrl+d" (item_of "a")
             eq_refl eq_refl (or_intror eq_refl) eq_refl))).
  - exact (proj2 (proj2 (@category_delete_moves_selection idle_list
             (category_with ["a"; "b"; "c"] 1) "d" (item_of "b")
             eq_refl eq_refl (or_introl eq_refl) eq_refl))).
Defined.




(** ** The title of a fetch-success event *)

(** C2, as stated, fails: a feed tab "A" that is loading and a category
    tab "News" both take the event titled "B"; neither is returned
    unchanged, both end up loaded with the items of the event. *)
Lemma fetch_other_title_accepted_counterexample :
  backend.Title fetch_titled_B <> feed.title (feed.New window_100_30 "A" 0 no_reader) /\
  @feed.Update idle_widgets window_100_30 (feed.New window_100_30 "A" 0 no_reader)
    (FetchSuccessMessage fetch_titled_B)
  <> Ok (feed.New window_100_30 "A" 0 no_reader, nil) /\
  backend.Title fetch_titled_B <> category.title category_news /\
  @category.Update idle_list category_news (FetchSuccessMessage fetch_titled_B)
  <> Ok (category_news, nil).
Proof.
  repeat split; cbn; discriminate.
Qed.

(** C2, amended.  [Update] does not compare the title of a fetch-success
    event with the title of the tab.  Two such events with the same items
    get the same result from a feed tab that is still loading and from a
    category tab, whatever their titles; a loading feed tab in a window of
    positive size loads from the items of the event, and a category tab
    takes them as its items. *)
Theorem fetch_title_not_compared {W : bubbles.Widgets} {L : simplelist.Behaviour}
        (st : Style) (r : feed.RssFeedTab) (m : category.Model)
        (f1 f2 : backend.FetchSuccessMessage) :
  backend.Items f1 = backend.Items f2 ->
  (feed.reachable r -> feed.loaded r = false ->
   feed.Update st r (FetchSuccessMessage f1) = feed.Update st r (FetchSuccessMessage f2)) /\
  (feed.loaded r = false -> 0 < WindowWidth st -> 0 < WindowHeight st ->
   feed.Update st r (FetchSuccessMessage f1)
   = Ok (feed.loadTab st r (backend.Items f1), nil)) /\
  category.Update m (FetchSuccessMessage f1) = category.Update m (FetchSuccessMessage f2) /\
  (exists m',
     category.Update m (FetchSuccessMessage f1) = Ok (m', nil) /\
     simplelist.Items (category.list m') = backend.Items f1 /\
     category.loaded m' = true).
Proof.
  intros Hi. split; [|split; [|split]].
  - intros Hr Hl. destruct (feed_loading_collapsed Hr Hl) as [_ Hs].
    cbn [feed.Update]. rewrite Hi. unfold feed.updatePane. rewrite Hs, Hl.
    reflexivity.
  - apply feed_Update_fetch_loads.
  - rewrite !category_Update_fetch, Hi. reflexivity.
  - destruct (category_Update_fetch_accepts m f1) as (m' & Hu & Hit & Hl & _).
    exists m'. auto.
Qed.

(** The tabs "A" and "News" on the events titled "A" and "B". *)
Lemma fetch_title_not_compared_witness :
  @feed.Update idle_widgets window_100_30 (feed.New window_100_30 "A" 0 no_reader)
    (FetchSuccessMessage fetch_titled_B)
  = @feed.Update idle_widgets window_100_30 (feed.New window_100_30 "A" 0 no_reader)
      (FetchSuccessMessage (backend.mkFetchSuccess "A" [item_of "b"])) /\
  @feed.Update idle_widgets window_100_30 (feed.New window_100_30 "A" 0 no_reader)
    (FetchSuccessMessage fetch_titled_B)
  = Ok (@feed.loadTab idle_widgets window_100_30
          (feed.New window_100_30 "A" 0 no_reader) [item_of "b"], nil) /\
  @category.Update idle_list category_news (FetchSuccessMessage fetch_titled_B)
  = @category.Update idle_list category_news
      (FetchSuccessMessage (backend.mkFetchSuccess "News" [item_of "b"])).
Proof.
  destruct (@fetch_title_not_compared idle_widgets idle_list window_100_30
              (feed.New window_100_30 "A" 0 no_reader) category_news
              fetch_titled_B (backend.mkFetchSuccess "A" [item_of "b"]) eq_refl)
    as (Hsame & Hload & _ & _).
  destruct (@fetch_title_not_compared idle_widgets idle_list window_100_30
              (feed.New window_100_30 "A" 0 no_reader) category_news
              fetch_titled_B (backend.mkFetchSuccess "News" [item_of "b"]) eq_refl)
    as (_ & _ & Hcat & _).
  split; [|split].
  - apply Hsame; [apply feed.reach_New | reflexivity].
  - apply Hload; [reflexivity | cbn; lia | cbn; lia].
  - exact Hcat.
Defined.

(** ** Drawing *)

(** [View] of a feed tab that is loading asks [strings.Repeat] for
    [WindowHeight - 3 - Height] line ends, and panics when that count is
    negative: in a window lower than the loading message plus three rows. *)
Lemma feed_View_loading {W : bubbles.Widgets} (st : Style) (r : feed.RssFeedTab) :
  feed.loaded r = false ->
  let loadingMessage :=
    bubbles.margin_Render
      (bubbles.spinner_View (feed.loadingSpinner r) ++ " Loading feed " ++ feed.title r) in
  (WindowHeight st - 3 - bubbles.lipgloss_Height loadingMessage < 0 ->
   feed.View st r = Panic) /\
  (0 <= WindowHeight st - 3 - bubbles.lipgloss_Height loadingMessage ->
   exists s, feed.View st r = Ok s).
Proof.
  intros Hl msg. unfold feed.View. rewrite Hl. cbn [negb]. fold msg.
  unfold strings_Repeat. split; intros H.
  - apply Z.ltb_lt in H. rewrite H. reflexivity.
  - apply Z.ltb_ge in H. rewrite H. cbn. eauto.
Qed.

(** [View] of a loaded feed tab and [View] of a category tab return. *)
Lemma feed_View_loaded {W : bubbles.Widgets} (st : Style) (r : feed.RssFeedTab) :
  feed.loaded r = true -> exists s, feed.View st r = Ok s.
Proof.
  intros Hl. unfold feed.View. rewrite Hl. cbn [negb].
  destruct (negb (feed.isViewportOpen r)); [eauto|].
  destruct (feed.SelectedPane_eqb (feed.selected r) feed.articlesList); eauto.
Qed.

(** * Further properties of the feed tab *)

Section FeedMoreLemmas.
Context {W : bubbles.Widgets}.

(** [Update] on a tab that is loading, with the split closed and the list
    focused, message by message. *)
Lemma feed_Update_while_loading (st : Style) (r : feed.RssFeedTab) (msg : Msg) :
  feed.loaded r = false -> feed.isViewportOpen r = false ->
  feed.selected r = feed.articlesList ->
  feed.Update st r msg =
  match msg with
  | FetchSuccessMessage m =>
      if ((0 <? WindowWidth st) && (0 <? WindowHeight st))%bool
      then Ok (feed.loadTab st r (backend.Items m), nil)
      else Ok (r, nil)
  | KeyMsg _ => Ok (r, nil)
  | OtherMsg _ =>
      Ok (feed.set_loadingSpinner r
            (fst (bubbles.spinner_Update (feed.loadingSpinner r) msg)),
          snd (bubbles.spinner_Update (feed.loadingSpinner r) msg))
  end.
Proof.
  intros Hl Ho Hs.
  destruct msg as [m | k | tag]; cbn [feed.Update]; rewrite Hl; cbn [negb andb].
  - destruct ((0 <? WindowWidth st) && (0 <? WindowHeight st))%bool; [reflexivity|].
    unfold feed.updatePane. rewrite Hs, Hl. reflexivity.
  - destruct (String.eqb k "enter"); [reflexivity|].
    destruct (String.eqb k "left" || String.eqb k "right")%bool.
    + rewrite Ho. reflexivity.
    + unfold feed.updatePane. rewrite Hs, Hl. reflexivity.
  - destruct (bubbles.spinner_Update (feed.loadingSpinner r) (OtherMsg tag)).
    reflexivity.
Qed.


(** What [Update] never writes: the title, the index, the reader and the
    two unused fields. *)
Lemma feed_Update_frame (st : Style) (r r' : feed.RssFeedTab) (msg : Msg) (cmd : Cmd) :
  feed.Update st r msg = Ok (r', cmd) ->
  feed.title r' = feed.title r /\ feed.index r' = feed.index r /\
  feed.readerFunc r' = feed.readerFunc r /\
  feed.viewedItem r' = feed.viewedItem r /\ feed.content r' = feed.content r.
Proof.
  intros H. unfold feed.Update, feed.updatePane in H.
  destruct msg as [m | k | tag]; split_branches H; try discriminate; inv_ok;
    cbn; auto.
Qed.

Lemma feed_set_loadingSpinner_same (r : feed.RssFeedTab) :
  feed.set_loadingSpinner r (feed.loadingSpinner r) = r.
Proof. destruct r. reflexivity. Qed.

Lemma feed_set_selected_twice (r : feed.RssFeedTab) :
  feed.set_selected (feed.set_selected r (other_pane (feed.selected r)))
                    (feed.selected r) = r.
Proof. destruct r. reflexivity. Qed.

(** "left" and "right" on a tab with the split open. *)
Lemma feed_Update_left_right_open (st : Style) (r : feed.RssFeedTab) (k : string) :
  k = "left" \/ k = "right" -> feed.isViewportOpen r = true ->
  feed.Update st r (KeyMsg k)
  = Ok (feed.set_selected r (other_pane (feed.selected r)), nil).
Proof.
  intros [-> | ->] Ho; cbn; rewrite Ho; destruct (feed.selected r); reflexivity.
Qed.

(** "enter" on a loaded tab with a selected item. *)
Lemma feed_Update_enter_loaded (st : Style) (r : feed.RssFeedTab) (it : Item) :
  feed.loaded r = true -> bubbles.SelectedItem (feed.list r) = Some it ->
  feed.Update st r (KeyMsg "enter")
  = Ok (feed.set_isViewportOpen
          (feed.set_viewport r (bubbles.SetContent (feed.viewport r) (GetContent it)))
          true, nil).
Proof.
  intros Hl Hs. cbn. rewrite Hl, Hs. cbn.
  destruct (feed.isViewportOpen r) eqn:Ho; cbn; [|reflexivity].
  destruct r; cbn in *; subst; reflexivity.
Qed.

(** [Update] writes the spinner on one path only: a message that is
    neither a fetch-success nor a key, on a tab that is loading. *)
Lemma feed_Update_spinner (st : Style) (r r' : feed.RssFeedTab) (msg : Msg) (cmd : Cmd) :
  feed.Update st r msg = Ok (r', cmd) ->
  feed.loaded r = true \/ (forall tag, msg <> OtherMsg tag) ->
  feed.loadingSpinner r' = feed.loadingSpinner r.
Proof.
  intros H Hc. unfold feed.Update, feed.updatePane in H.
  destruct msg as [m | k | tag].
  - split_branches H; try discriminate; inv_ok; reflexivity.
  - split_branches H; try discriminate; inv_ok; reflexivity.
  - destruct Hc as [Hl | Hn]; [|exfalso; exact (Hn tag eq_refl)].
    rewrite Hl in H. cbn [negb] in H.
    split_branches H; try discriminate; inv_ok; reflexivity.
Qed.

End FeedMoreLemmas.

(** X1.  Until a feed tab is loaded its list and its viewport are the
    zero values it was made with, the split is closed and the list is the
    selected pane: nothing [Update] does before loading builds or touches
    a widget other than the spinner. *)
Theorem feed_widgets_unbuilt_until_loaded {W : bubbles.Widgets} (r : feed.RssFeedTab) :
  feed.reachable r -> feed.loaded r = false ->
  feed.list r = bubbles.list_zero /\
  feed.viewport r = bubbles.viewport_zero /\
  feed.isViewportOpen r = false /\
  feed.selected r = feed.articlesList.
Proof.
  induction 1 as [st t i rf | st r msg r' cmd Hr IH Hu | r i Hr IH]; intros Hl'.
  - cbn. auto.
  - assert (Hl : feed.loaded r = false).
    { destruct (feed.loaded r) eqn:E; [|reflexivity].
      apply feed_Update_flags in Hu. destruct Hu as (Hk & _).
      rewrite (Hk E) in Hl'. discriminate. }
    destruct (IH Hl) as (Hlist & Hvp & Ho & Hs).
    rewrite (feed_Update_while_loading st r msg Hl Ho Hs) in Hu.
    destruct msg as [m | k | tag].
    + destruct ((0 <? WindowWidth st) && (0 <? WindowHeight st))%bool; inv_ok.
      * cbn in Hl'. discriminate.
      * auto.
    + inv_ok. auto.
    + inv_ok. cbn. auto.
  - cbn in *. auto.
Qed.

(** A fetch-success that came when the window size was not known, then a
    key and a spinner tick: the widgets are still the zero values. *)
Lemma feed_widgets_unbuilt_until_loaded_witness :
  feed.list (feed.set_loadingSpinner (feed.New window_unknown "A" 0 no_reader)
               (bubbles.mkSpinner bubbles.Points "c1" 1)) = bubbles.list_zero /\
  feed.viewport (feed.set_loadingSpinner (feed.New window_unknown "A" 0 no_reader)
                   (bubbles.mkSpinner bubbles.Points "c1" 1)) = bubbles.viewport_zero /\
  feed.isViewportOpen (feed.set_loadingSpinner (feed.New window_unknown "A" 0 no_reader)
                         (bubbles.mkSpinner bubbles.Points "c1" 1)) = false /\
  feed.selected (feed.set_loadingSpinner (feed.New window_unknown "A" 0 no_reader)
                   (bubbles.mkSpinner bubbles.Points "c1" 1)) = feed.articlesList.
Proof.
  apply (@feed_widgets_unbuilt_until_loaded moving_widgets).
  - apply (@feed.reach_Update moving_widgets window_unknown
             (feed.New window_unknown "A" 0 no_reader) (OtherMsg 7) _ (ExternalCmd 0)).
    + apply (@feed.reach_Update moving_widgets window_100_30
               (feed.New window_unknown "A" 0 no_reader) (KeyMsg "j") _ nil).
      * apply (@feed.reach_Update moving_widgets window_unknown
                 (feed.New window_unknown "A" 0 no_reader)
                 (FetchSuccessMessage (backend.mkFetchSuccess "A" [item_of "a"])) _ nil).
        -- apply feed.reach_New.
        -- reflexivity.
      * reflexivity.
    + reflexivity.
  - reflexivity.
Defined.

(** X2.  While a feed tab is loading, a key message returns the tab as it
    is and no command; a fetch-success that comes when a window dimension
    is not positive is dropped, the tab returned unchanged with the items
    kept nowhere; and whatever leaves the tab loading changes the spinner
    at most. *)
Theorem feed_loading_ignores_input {W : bubbles.Widgets} (st : Style)
        (r : feed.RssFeedTab) :
  feed.reachable r -> feed.loaded r = false ->
  (forall k, feed.Update st r (KeyMsg k) = Ok (r, nil)) /\
  (forall m, WindowWidth st <= 0 \/ WindowHeight st <= 0 ->
     feed.Update st r (FetchSuccessMessage m) = Ok (r, nil)) /\
  (forall msg r' cmd,
     feed.Update st r msg = Ok (r', cmd) -> feed.loaded r' = false ->
     r' = feed.set_loadingSpinner r (feed.loadingSpinner r')).
Proof.
  intros Hr Hl.
  destruct (feed_loading_collapsed Hr Hl) as [Ho Hs].
  split; [|split].
  - intros k. apply (feed_Update_while_loading st r (KeyMsg k) Hl Ho Hs).
  - intros m Hz.
    rewrite (feed_Update_while_loading st r (FetchSuccessMessage m) Hl Ho Hs).
    assert (E : ((0 <? WindowWidth st) && (0 <? WindowHeight st))%bool = false).
    { apply andb_false_iff. rewrite !Z.ltb_ge. exact Hz. }
    rewrite E. reflexivity.
  - intros msg r' cmd Hu Hl'.
    rewrite (feed_Update_while_loading st r msg Hl Ho Hs) in Hu.
    destruct msg as [m | k | tag].
    + destruct ((0 <? WindowWidth st) && (0 <? WindowHeight st))%bool; inv_ok.
      * cbn in Hl'. discriminate.
      * symmetry. apply feed_set_loadingSpinner_same.
    + inv_ok. symmetry. apply feed_set_loadingSpinner_same.
    + inv_ok. destruct r; reflexivity.
Qed.

(** A key on a new tab, and a fetch-success when the window size is not
    known. *)
Lemma feed_loading_ignores_input_witness :
  @feed.Update moving_widgets window_100_30 (feed.New window_100_30 "A" 0 no_reader)
    (KeyMsg "j")
  = Ok (feed.New window_100_30 "A" 0 no_reader, nil) /\
  @feed.Update moving_widgets window_unknown (feed.New window_unknown "A" 0 no_reader)
    (FetchSuccessMessage (backend.mkFetchSuccess "A" [item_of "a"]))
  = Ok (feed.New window_unknown "A" 0 no_reader, nil).
Proof.
  split.
  - apply (@feed_loading_ignores_input moving_widgets window_100_30
             (feed.New window_100_30 "A" 0 no_reader)
             (feed.reach_New _ _ _ _) eq_refl).
  - apply (@feed_loading_ignores_input moving_widgets window_unknown
             (feed.New window_unknown "A" 0 no_reader)
             (feed.reach_New _ _ _ _) eq_refl).
    left. cbn. lia.
Defined.

(** X3.  What can set a flag or move the focus of a feed tab, and nothing
    else can: [loaded] turns true only on a fetch-success in a window of
    positive size, and the tab is then the one [loadTab] builds;
    [isViewportOpen] turns true only on "enter" on a loaded tab; the
    selected pane changes only on "left" or "right" with the split open. *)
Theorem feed_flag_triggers {W : bubbles.Widgets} (st : Style)
        (r r' : feed.RssFeedTab) (msg : Msg) (cmd : Cmd) :
  feed.Update st r msg = Ok (r', cmd) ->
  (feed.loaded r = false -> feed.loaded r' = true ->
   exists m, msg = FetchSuccessMessage m /\
             0 < WindowWidth st /\ 0 < WindowHeight st /\
             r' = feed.loadTab st r (backend.Items m) /\ cmd = nil) /\
  (feed.isViewportOpen r = false -> feed.isViewportOpen r' = true ->
   msg = KeyMsg "enter" /\ feed.loaded r = true) /\
  (feed.selected r' <> feed.selected r ->
   feed.isViewportOpen r = true /\ (msg = KeyMsg "left" \/ msg = KeyMsg "right")).
Proof.
  intros H.
  destruct msg as [m | k | tag]; cbn [feed.Update] in H.
  - destruct (negb (feed.loaded r) && (0 <? WindowWidth st) && (0 <? WindowHeight st))%bool
      eqn:G.
    + inv_ok. apply andb_true_iff in G. destruct G as [G Gh].
      apply andb_true_iff in G. destruct G as [_ Gw].
      apply Z.ltb_lt in Gw, Gh.
      split; [intros _ _; exists m; auto|].
      split; cbn; intros; congruence.
    + apply feed_updatePane_flags in H. destruct H as (Hl & Ho & Hs & _).
      rewrite Hl, Ho, Hs. repeat split; intros; congruence.
  - destruct (String.eqb_spec k "enter") as [Hk | Hk].
    + subst k. destruct (feed.loaded r) eqn:Hl; cbn [negb] in H.
      * destruct (bubbles.SelectedItem (feed.list r)); cbn in H; [|discriminate].
        destruct (feed.isViewportOpen r) eqn:Ho; cbn in H; inv_ok; cbn;
          repeat split; intros; congruence.
      * inv_ok. repeat split; intros; congruence.
    + destruct (String.eqb k "left" || String.eqb k "right")%bool eqn:Hlr.
      * assert (Hk' : KeyMsg k = KeyMsg "left" \/ KeyMsg k = KeyMsg "right").
        { apply orb_true_iff in Hlr. destruct Hlr as [E | E];
            apply String.eqb_eq in E; subst; auto. }
        destruct (feed.isViewportOpen r) eqn:Ho; cbn [negb] in H.
        -- destruct (feed.selected r); cbn in H; inv_ok; cbn;
             repeat split; intros; try congruence; auto.
        -- inv_ok. repeat split; intros; congruence.
      * apply feed_updatePane_flags in H. destruct H as (Hl & Ho & Hs & _).
        rewrite Hl, Ho, Hs. repeat split; intros; congruence.
  - destruct (feed.loaded r) eqn:Hl; cbn [negb] in H.
    + apply feed_updatePane_flags in H. destruct H as (Hl' & Ho & Hs & _).
      rewrite Hl', Ho, Hs. repeat split; intros; congruence.
    + destruct (bubbles.spinner_Update (feed.loadingSpinner r) (OtherMsg tag)).
      inv_ok. cbn. repeat split; intros; congruence.
Qed.

(** The fetch-success that loads a new tab, and the "right" that moves
    the focus of an open split. *)
Lemma feed_flag_triggers_witness :
  (exists m,
     FetchSuccessMessage (backend.mkFetchSuccess "A" [item_of "a"; item_of "b"])
     = FetchSuccessMessage m /\
     0 < WindowWidth window_100_30 /\ 0 < WindowHeight window_100_30 /\
     feed_two_articles
     = @feed.loadTab idle_widgets window_100_30
         (feed.New window_100_30 "A" 0 no_reader) (backend.Items m) /\
     nil = nil) /\
  (feed.isViewportOpen feed_split_open = true /\
   (KeyMsg "right" = KeyMsg "left" \/ KeyMsg "right" = KeyMsg "right")).
Proof.
  split.
  - apply (@feed_flag_triggers idle_widgets window_100_30
             (feed.New window_100_30 "A" 0 no_reader) feed_two_articles
             (FetchSuccessMessage (backend.mkFetchSuccess "A" [item_of "a"; item_of "b"]))
             nil eq_refl); reflexivity.
  - apply (@feed_flag_triggers idle_widgets window_100_30
             feed_split_open (feed.set_selected feed_split_open feed.articlesPreview)
             (KeyMsg "right") nil eq_refl).
    cbn. discriminate.
Defined.

(** X4.  On a loaded feed tab every message but the keys "enter", "left"
    and "right" goes to the selected pane alone: with the list selected
    the list widget updates and the viewport is as it was, with the
    preview selected the viewport updates and the list is as it was; the
    command is the widget's. *)
Theorem feed_routes_to_selected_pane {W : bubbles.Widgets} (st : Style)
        (r : feed.RssFeedTab) (msg : Msg) :
  feed.loaded r = true ->
  (forall k, msg = KeyMsg k -> k <> "enter" /\ k <> "left" /\ k <> "right") ->
  feed.Update st r msg =
  match feed.selected r with
  | feed.articlesList =>
      Ok (feed.set_list r (fst (bubbles.list_Update (feed.list r) msg)),
          snd (bubbles.list_Update (feed.list r) msg))
  | feed.articlesPreview =>
      Ok (feed.set_viewport r (fst (bubbles.viewport_Update (feed.viewport r) msg)),
          snd (bubbles.viewport_Update (feed.viewport r) msg))
  end.
Proof.
  intros Hl Hk.
  assert (Hp : feed.updatePane r msg =
               match feed.selected r with
               | feed.articlesList =>
                   Ok (feed.set_list r (fst (bubbles.list_Update (feed.list r) msg)),
                       snd (bubbles.list_Update (feed.list r) msg))
               | feed.articlesPreview =>
                   Ok (feed.set_viewport r
                         (fst (bubbles.viewport_Update (feed.viewport r) msg)),
                       snd (bubbles.viewport_Update (feed.viewport r) msg))
               end).
  { unfold feed.updatePane. rewrite Hl. destruct (feed.selected r); cbn.
    - destruct (bubbles.list_Update (feed.list r) msg); reflexivity.
    - destruct (bubbles.viewport_Update (feed.viewport r) msg); reflexivity. }
  rewrite <- Hp.
  destruct msg as [m | k | tag]; cbn [feed.Update]; rewrite Hl; cbn [negb andb].
  - reflexivity.
  - destruct (Hk k eq_refl) as (H1 & H2 & H3).
    apply String.eqb_neq in H1, H2, H3. rewrite H1, H2, H3. reflexivity.
  - reflexivity.
Qed.

(** "j" with the list selected moves the cursor of the list and leaves
    the viewport; with the preview selected it scrolls the viewport and
    leaves the list. *)
Lemma feed_routes_to_selected_pane_witness :
  (exists r',
     @feed.Update moving_widgets window_100_30 feed_split_open (KeyMsg "j")
     = Ok (r', nil) /\
     bubbles.index (feed.list r') = 1 /\
     feed.viewport r' = feed.viewport feed_split_open) /\
  (exists r',
     @feed.Update moving_widgets window_100_30
       (feed.set_selected feed_split_open feed.articlesPreview) (KeyMsg "j")
     = Ok (r', nil) /\
     bubbles.YOffset (feed.viewport r') = 1 /\
     feed.list r' = feed.list feed_split_open).
Proof.
  split.
  - eexists. split.
    + apply (@feed_routes_to_selected_pane moving_widgets window_100_30
               feed_split_open (KeyMsg "j") eq_refl).
      intros k E. inversion E. repeat split; discriminate.
    + split; reflexivity.
  - eexists. split.
    + apply (@feed_routes_to_selected_pane moving_widgets window_100_30
               (feed.set_selected feed_split_open feed.articlesPreview)
               (KeyMsg "j") eq_refl).
      intros k E. inversion E. repeat split; discriminate.
    + split; reflexivity.
Defined.

(** X5.  With the split open, two presses of "left" or "right" (any two
    of them) bring the feed tab back to what it was: the first moves the
    focus to the other pane, the second moves it back, and nothing else
    changes. *)
Theorem feed_left_right_twice {W : bubbles.Widgets} (st : Style)
        (r : feed.RssFeedTab) (k1 k2 : string) :
  k1 = "left" \/ k1 = "right" -> k2 = "left" \/ k2 = "right" ->
  feed.isViewportOpen r = true ->
  exists r1,
    feed.Update st r (KeyMsg k1) = Ok (r1, nil) /\
    feed.selected r1 <> feed.selected r /\
    feed.Update st r1 (KeyMsg k2) = Ok (r, nil).
Proof.
  intros H1 H2 Ho.
  exists (feed.set_selected r (other_pane (feed.selected r))).
  split; [apply feed_Update_left_right_open; assumption|].
  split; [cbn; destruct (feed.selected r); discriminate|].
  rewrite (feed_Update_left_right_open st _ H2) by exact Ho.
  f_equal. f_equal. cbn [feed.selected feed.set_selected].
  destruct r as [t i l sp li o vi c vp s rf]. destruct s; reflexivity.
Qed.

Lemma feed_left_right_twice_witness :
  exists r1,
    @feed.Update idle_widgets window_100_30 feed_split_open (KeyMsg "right")
    = Ok (r1, nil) /\
    feed.selected r1 <> feed.selected feed_split_open /\
    @feed.Update idle_widgets window_100_30 r1 (KeyMsg "right")
    = Ok (feed_split_open, nil).
Proof.
  exact (@feed_left_right_twice idle_widgets window_100_30 feed_split_open
           "right" "right" (or_intror eq_refl) (or_intror eq_refl) eq_refl).
Defined.

(** X6.  "enter" twice in a row on a loaded feed tab with a selected item
    is "enter" once: the second returns the tab the first returned. *)
Theorem feed_enter_twice {W : bubbles.Widgets} (st : Style)
        (r : feed.RssFeedTab) (it : Item) :
  feed.loaded r = true -> bubbles.SelectedItem (feed.list r) = Some it ->
  exists r1,
    feed.Update st r (KeyMsg "enter") = Ok (r1, nil) /\
    feed.Update st r1 (KeyMsg "enter") = Ok (r1, nil).
Proof.
  intros Hl Hs.
  eexists. split; [apply (feed_Update_enter_loaded st r Hl Hs)|].
  rewrite (@feed_Update_enter_loaded _ st _ it) by (cbn; assumption).
  reflexivity.
Qed.

Lemma feed_enter_twice_witness :
  exists r1,
    @feed.Update idle_widgets window_100_30 feed_two_articles (KeyMsg "enter")
    = Ok (r1, nil) /\
    @feed.Update idle_widgets window_100_30 r1 (KeyMsg "enter") = Ok (r1, nil).
Proof.
  exact (@feed_enter_twice idle_widgets window_100_30 feed_two_articles
           (item_of "a") eq_refl eq_refl).
Defined.

(** X7.  [Update] does not read the index of a feed tab: updating after
    [SetIndex] is [SetIndex] after updating (a panic stays a panic), and
    [Index] returns what [SetIndex] set. *)
Theorem feed_SetIndex_commutes {W : bubbles.Widgets} (st : Style)
        (r : feed.RssFeedTab) (i : Z) (msg : Msg) :
  feed.Update st (feed.SetIndex r i) msg =
  match feed.Update st r msg with
  | Ok (r', cmd) => Ok (feed.SetIndex r' i, cmd)
  | Panic => Panic
  end /\
  feed.Index (feed.SetIndex r i) = i.
Proof.
  split; [|reflexivity].
  destruct r as [t i0 l sp li o vi c vp s rf].
  unfold feed.Update, feed.updatePane, feed.SetIndex. cbn.
  destruct msg as [m | k | tag];
    repeat match goal with
           | |- context [if ?b then _ else _] => destruct b
           | |- context [let (_, _) := ?x in _] => destruct x
           | |- context [assertItem ?x] => destruct x; cbn
           end; reflexivity.
Qed.

(** X8.  [Update] keeps what identifies a feed tab: the title, the index
    and the type are those of the tab it was given.  [Init] of the
    returned tab calls the same reader on the same title, batched with the
    tick of the spinner the returned tab holds; it is the same command as
    before unless [Update] stepped the spinner, which it does only on a
    tab that is loading, for a message that is neither a fetch-success nor
    a key. *)
Theorem feed_Update_keeps_identity {W : bubbles.Widgets} (st : Style)
        (r r' : feed.RssFeedTab) (msg : Msg) (cmd : Cmd) :
  feed.Update st r msg = Ok (r', cmd) ->
  feed.Title r' = feed.Title r /\
  feed.Index r' = feed.Index r /\
  feed.Type_ r' = feed.Type_ r /\
  feed.Init r'
  = Batch (feed.readerFunc r (feed.title r))
          (bubbles.spinner_Tick (feed.loadingSpinner r')) /\
  (feed.loaded r = true \/ (forall tag, msg <> OtherMsg tag) ->
   feed.Init r' = feed.Init r).
Proof.
  intros H. pose proof (@feed_Update_spinner _ st r r' msg cmd H) as Hsp.
  apply feed_Update_frame in H.
  destruct H as (Ht & Hi & Hrf & _).
  unfold feed.Title, feed.Index, feed.Type_, feed.Init.
  rewrite Ht, Hi, Hrf. repeat (split; [reflexivity|]).
  intros Hc. rewrite (Hsp Hc). reflexivity.
Qed.

(** A spinner tick on a new tab: the title stays and [Init] now carries
    the tick of the stepped spinner; a key on a loaded tab: [Init] is
    what it was. *)
Lemma feed_Update_keeps_identity_witness :
  (feed.Title (feed.set_loadingSpinner (feed.New window_100_30 "A" 0 no_reader)
                 (bubbles.mkSpinner bubbles.Points "c1" 1)) = "A" /\
   @feed.Init moving_widgets
     (feed.set_loadingSpinner (feed.New window_100_30 "A" 0 no_reader)
        (bubbles.mkSpinner bubbles.Points "c1" 1))
   = Batch (ExternalCmd 1) (ExternalCmd 1) /\
   @feed.Init moving_widgets (feed.New window_100_30 "A" 0 no_reader)
   = Batch (ExternalCmd 1) (ExternalCmd 0)) /\
  @feed.Init moving_widgets (feed.set_selected feed_split_open feed.articlesPreview)
  = @feed.Init moving_widgets feed_split_open.
Proof.
  split.
  - destruct (@feed_Update_keeps_identity moving_widgets window_100_30
                (feed.New window_100_30 "A" 0 no_reader)
                (feed.set_loadingSpinner (feed.New window_100_30 "A" 0 no_reader)
                   (bubbles.mkSpinner bubbles.Points "c1" 1))
                (OtherMsg 7) (ExternalCmd 0) eq_refl) as (Ht & _ & _ & Hi & _).
    split; [exact Ht|]. split; [exact Hi | reflexivity].
  - apply (@feed_Update_keeps_identity moving_widgets window_100_30
             feed_split_open (feed.set_selected feed_split_open feed.articlesPreview)
             (KeyMsg "right") nil eq_refl).
    left. reflexivity.
Defined.

(** X9.  [View] of a feed tab panics in one case only: the tab is loading
    and the window is lower than the loading message plus three rows, so
    that the count given to [strings.Repeat] is negative.  In every other
    case it returns; for a loading tab, the message followed by exactly
    [WindowHeight - 3 - Height message] line ends. *)
Theorem feed_View_panics_iff {W : bubbles.Widgets} (st : Style) (r : feed.RssFeedTab) :
  let loadingMessage :=
    bubbles.margin_Render
      (bubbles.spinner_View (feed.loadingSpinner r) ++ " Loading feed " ++ feed.title r) in
  let count := WindowHeight st - 3 - bubbles.lipgloss_Height loadingMessage in
  (feed.View st r = Panic <-> feed.loaded r = false /\ count < 0) /\
  (feed.loaded r = false -> 0 <= count ->
   feed.View st r
   = Ok (loadingMessage
         ++ repeat_string (String (Ascii.ascii_of_nat 10) "") (Z.to_nat count))).
Proof.
  intros msg count. split.
  - split.
    + intros H. destruct (feed.loaded r) eqn:Hl.
      * destruct (feed_View_loaded st r Hl) as [s E]. congruence.
      * split; [reflexivity|].
        destruct (Z.lt_ge_cases count 0) as [Hc | Hc]; [exact Hc|].
        destruct (feed_View_loading st r Hl) as [_ Hok].
        destruct (Hok Hc) as [s E]. congruence.
    + intros [Hl Hc]. apply (feed_View_loading st r Hl). exact Hc.
  - intros Hl Hc. unfold feed.View. rewrite Hl. cbn [negb]. fold msg. fold count.
    unfold strings_Repeat. apply Z.ltb_ge in Hc. rewrite Hc. reflexivity.
Qed.

(** A new tab in a window of 30 rows is drawn with 25 line ends after the
    message; in a window of 4 rows, and in one whose size is not known,
    [View] panics. *)
Lemma feed_View_panics_iff_witness :
  @feed.View idle_widgets window_100_30 (feed.New window_100_30 "A" 0 no_reader)
  = Ok (@bubbles.margin_Render idle_widgets "... Loading feed A"
        ++ repeat_string (String (Ascii.ascii_of_nat 10) "") 25) /\
  @feed.View idle_widgets window_100_4 (feed.New window_100_4 "A" 0 no_reader) = Panic /\
  @feed.View idle_widgets window_unknown (feed.New window_unknown "A" 0 no_reader) = Panic.
Proof.
  split; [|split].
  - apply (proj2 (@feed_View_panics_iff idle_widgets window_100_30
                    (feed.New window_100_30 "A" 0 no_reader)));
      [reflexivity | cbn; lia].
  - apply (proj1 (@feed_View_panics_iff idle_widgets window_100_4
                    (feed.New window_100_4 "A" 0 no_reader))).
    split; [reflexivity | cbn; lia].
  - apply (proj1 (@feed_View_panics_iff idle_widgets window_unknown
                    (feed.New window_unknown "A" 0 no_reader))).
    split; [reflexivity | cbn; lia].
Defined.

(** X10.  The two revisions of the feed tab's [Update] differ in the list
    they build when they load, and in nothing else: on a message that
    does not load the tab they return the same; on one that does, both
    return a loaded tab with the same viewport and the same list size,
    the earlier revision with the items as fetched and the default
    delegate where the later one has the wrapped items and its own
    delegate. *)
Theorem feed_v1_Update_agrees {W : bubbles.Widgets} (st : Style)
        (r : feed.RssFeedTab) (msg : Msg) :
  let loads :=
    (negb (feed.loaded r) && (0 <? WindowWidth st) && (0 <? WindowHeight st))%bool in
  ((forall m, msg = FetchSuccessMessage m -> loads = false) ->
   feed_v1.Update st r msg = feed.Update st r msg) /\
  (forall m, msg = FetchSuccessMessage m -> loads = true ->
   exists l1,
     feed_v1.Update st r msg
     = Ok (feed.set_list (feed.loadTab st r (backend.Items m)) l1, nil) /\
     feed.Update st r msg = Ok (feed.loadTab st r (backend.Items m), nil) /\
     bubbles.items l1 = backend.Items m /\
     bubbles.delegate l1 = bubbles.NewDefaultDelegate /\
     bubbles.index l1 = bubbles.index (feed.list (feed.loadTab st r (backend.Items m))) /\
     bubbles.width l1 = bubbles.width (feed.list (feed.loadTab st r (backend.Items m))) /\
     bubbles.height l1 = bubbles.height (feed.list (feed.loadTab st r (backend.Items m)))).
Proof.
  intros loads. split.
  - intros Hn. destruct msg as [m | k | tag]; try reflexivity.
    specialize (Hn m eq_refl). unfold loads in Hn.
    cbn [feed_v1.Update feed.Update]. rewrite Hn. reflexivity.
  - intros m -> Hy. unfold loads in Hy.
    eexists. cbn [feed_v1.Update feed.Update]. rewrite Hy.
    split; [|split; [reflexivity|]].
    + cbn. reflexivity.
    + cbn. auto.
Qed.

(** The fetch-success that loads a new tab, in both revisions, and a key. *)
Lemma feed_v1_Update_agrees_witness :
  (exists l1,
     @feed_v1.Update moving_widgets window_100_30
       (feed.New window_100_30 "A" 0 no_reader)
       (FetchSuccessMessage (backend.mkFetchSuccess "A" [item_of "a"]))
     = Ok (feed.set_list
             (@feed.loadTab moving_widgets window_100_30
                (feed.New window_100_30 "A" 0 no_reader) [item_of "a"]) l1, nil) /\
     bubbles.items l1 = [item_of "a"] /\
     bubbles.items
       (feed.list (@feed.loadTab moving_widgets window_100_30
                     (feed.New window_100_30 "A" 0 no_reader) [item_of "a"]))
     = [mkItem "a" " (wrapped)" "a body"]) /\
  @feed_v1.Update moving_widgets window_100_30 feed_split_open (KeyMsg "left")
  = @feed.Update moving_widgets window_100_30 feed_split_open (KeyMsg "left").
Proof.
  split.
  - destruct (proj2 (@feed_v1_Update_agrees moving_widgets window_100_30
                       (feed.New window_100_30 "A" 0 no_reader)
                       (FetchSuccessMessage (backend.mkFetchSuccess "A" [item_of "a"])))
                    _ eq_refl eq_refl) as (l1 & H1 & _ & Hi & _).
    exists l1. split; [exact H1|]. split; [exact Hi | reflexivity].
  - apply (proj1 (@feed_v1_Update_agrees moving_widgets window_100_30
                    feed_split_open (KeyMsg "left"))).
    intros m E. discriminate E.
Defined.

(** X11.  Loading and then "enter": after a fetch-success with at least
    one item loads a feed tab, "enter" opens the split on the first item
    (its description wrapped to the list width), in a viewport of width
    [WindowWidth - WindowWidth / 4 - 4]; after a fetch-success with no
    item, "enter" panics. *)
Theorem feed_load_then_enter {W : bubbles.Widgets} (st : Style)
        (r : feed.RssFeedTab) (m : backend.FetchSuccessMessage) :
  feed.loaded r = false -> 0 < WindowWidth st -> 0 < WindowHeight st ->
  exists r1,
    feed.Update st r (FetchSuccessMessage m) = Ok (r1, nil) /\
    (backend.Items m = [] -> feed.Update st r1 (KeyMsg "enter") = Panic) /\
    (forall it rest, backend.Items m = it :: rest ->
       exists r2,
         feed.Update st r1 (KeyMsg "enter") = Ok (r2, nil) /\
         bubbles.vpContent (feed.viewport r2)
         = GetContent (bubbles.WrapDescription it (WindowWidth st / 4)) /\
         bubbles.vpWidth (feed.viewport r2)
         = WindowWidth st - WindowWidth st / 4 - 4 /\
         feed.isViewportOpen r2 = true /\
         feed.selected r2 = feed.selected r).
Proof.
  intros Hl Hw Hh.
  exists (feed.loadTab st r (backend.Items m)).
  split; [apply feed_Update_fetch_loads; assumption|].
  rewrite <- (Z.quot_div_nonneg (WindowWidth st) 4) by lia.
  split.
  - intros E. rewrite E. reflexivity.
  - intros it rest E. rewrite E.
    eexists. split.
    + apply feed_Update_enter_loaded; reflexivity.
    + cbn. auto.
Qed.

Lemma feed_load_then_enter_witness :
  exists r1,
    @feed.Update moving_widgets window_100_30 (feed.New window_100_30 "A" 0 no_reader)
      (FetchSuccessMessage (backend.mkFetchSuccess "A" [item_of "a"; item_of "b"]))
    = Ok (r1, nil) /\
    exists r2,
      @feed.Update moving_widgets window_100_30 r1 (KeyMsg "enter") = Ok (r2, nil) /\
      bubbles.vpContent (feed.viewport r2) = "a body" /\
      bubbles.vpWidth (feed.viewport r2) = 71 /\
      feed.isViewportOpen r2 = true.
Proof.
  destruct (@feed_load_then_enter moving_widgets window_100_30
              (feed.New window_100_30 "A" 0 no_reader)
              (backend.mkFetchSuccess "A" [item_of "a"; item_of "b"])
              eq_refl ltac:(cbn; lia) ltac:(cbn; lia)) as (r1 & Hu & _ & Hne).
  destruct (Hne (item_of "a") [item_of "b"] eq_refl) as (r2 & Hu2 & Hc & Hw & Ho & _).
  exists r1. split; [exact Hu|]. exists r2. cbn in Hc, Hw. auto.
Defined.

(** * Further properties of the category tab *)

Section CategoryMoreLemmas.
Context {L : simplelist.Behaviour}.

(** What [Update] never writes: everything but the list and [loaded]. *)
Lemma category_Update_frame (m m' : category.Model) (msg : Msg) (cmd : Cmd) :
  category.Update m msg = Ok (m', cmd) ->
  category.colors m' = category.colors m /\
  category.width m' = category.width m /\
  category.height m' = category.height m /\
  category.title m' = category.title m /\
  category.keymap m' = category.keymap m /\
  category.help m' = category.help m /\
  category.reader m' = category.reader m.
Proof.
  intros H. unfold category.Update, category.updateList in H.
  destruct msg as [f | k | tag]; split_branches H; try discriminate; inv_ok;
    cbn; auto 10.
Qed.

(** The keys of the default keymap, case by case of the switch. *)
Lemma category_default_Matches (k : string) :
  key.Matches k (category.SelectFeed category.DefaultKeymap) = String.eqb k "enter" /\
  key.Matches k (category.NewFeed category.DefaultKeymap)
  = (String.eqb k "n" || String.eqb k "ctrl+n")%bool /\
  key.Matches k (category.EditFeed category.DefaultKeymap)
  = (String.eqb k "e" || String.eqb k "ctrl+e")%bool /\
  key.Matches k (category.DeleteFeed category.DefaultKeymap)
  = (String.eqb k "d" || String.eqb k "ctrl+d")%bool.
Proof.
  unfold key.Matches. cbn.
  rewrite !andb_true_r, !orb_false_r. auto.
Qed.

(** Delete on a loaded tab with a selected item, as the code computes it. *)
Lemma category_Update_delete (m : category.Model) (k : string) (it : Item) :
  category.loaded m = true ->
  category.keymap m = category.DefaultKeymap ->
  k = "d" \/ k = "ctrl+d" ->
  simplelist.SelectedItem (category.list m) = Some it ->
  category.Update m (KeyMsg k)
  = Ok (category.set_list m
          (simplelist.SetIndex (category.list m)
             (if len (simplelist.Items (category.list m)) =? 1 then 0
              else Z.rem (simplelist.Index (category.list m))
                         (len (simplelist.Items (category.list m)) - 1))),
        DeleteItem backend.Feed (FilterValue it)).
Proof.
  intros Hl Hk Hkey Hs.
  destruct (simplelist_SelectedItem_Some _ Hs) as [He _].
  cbn [category.Update]. rewrite Hl, Hk, He, Hs. cbn [negb].
  destruct Hkey as [-> | ->]; cbn;
    destruct (len (simplelist.Items (category.list m)) =? 1); reflexivity.
Qed.

End CategoryMoreLemmas.

(** X12.  [Update] of a category tab writes the list and [loaded] and
    nothing else: the title, the size, the colours, the keymap, the help
    and the reader are those of the tab it was given, so the title and
    the type stay and [Init] of the returned tab is the same command. *)
Theorem category_Update_keeps_identity {L : simplelist.Behaviour}
        (m m' : category.Model) (msg : Msg) (cmd : Cmd) :
  category.Update m msg = Ok (m', cmd) ->
  category.Title m' = category.Title m /\
  category.Type_ m' = category.Type_ m /\
  category.Init m' = category.Init m /\
  m' = category.set_loaded (category.set_list m (category.list m')) (category.loaded m').
Proof.
  intros H. apply category_Update_frame in H.
  destruct H as (Hc & Hw & Hh & Ht & Hk & Hhelp & Hr).
  unfold category.Title, category.Type_, category.Init.
  rewrite Ht, Hr. repeat split.
  destruct m, m'; cbn in *; subst; reflexivity.
Qed.

Lemma category_Update_keeps_identity_witness :
  category.Title (category_with ["a"; "b"; "c"] 0) = "News" /\
  category.Type_ (category_with ["a"; "b"; "c"] 0) = tab.Category /\
  category.Init (category_with ["a"; "b"; "c"] 0) = ExternalCmd 1 /\
  category_with ["a"; "b"; "c"] 0
  = category.set_loaded
      (category.set_list (category_with ["a"; "b"; "c"] 2)
         (category.list (category_with ["a"; "b"; "c"] 0)))
      (category.loaded (category_with ["a"; "b"; "c"] 0)).
Proof.
  exact (@category_Update_keeps_identity idle_list
           (category_with ["a"; "b"; "c"] 2) (category_with ["a"; "b"; "c"] 0)
           (KeyMsg "d") (DeleteItem backend.Feed "c") eq_refl).
Defined.

(** X13.  [Update] of a category tab panics in one case only: the tab is
    loaded, its list is not empty and has no selected item (the index is
    outside the items), and the key is Select, Edit or Delete (New, which
    comes before Edit and Delete in the switch, never panics).  On every
    other tab and message it returns. *)
Theorem category_Update_panics_iff {L : simplelist.Behaviour}
        (m : category.Model) (msg : Msg) :
  category.Update m msg = Panic <->
  exists k,
    msg = KeyMsg k /\
    category.loaded m = true /\
    simplelist.IsEmpty (category.list m) = false /\
    simplelist.SelectedItem (category.list m) = None /\
    (key.Matches k (category.SelectFeed (category.keymap m))
     || negb (key.Matches k (category.NewFeed (category.keymap m)))
        && (key.Matches k (category.EditFeed (category.keymap m))
            || key.Matches k (category.DeleteFeed (category.keymap m))))%bool = true.
Proof.
  split.
  - intros H. unfold category.Update, category.updateList in H.
    destruct msg as [f | k | tag]; split_branches H; try discriminate.
    all: repeat match goal with
                | E : negb _ = true |- _ => apply negb_true_iff in E
                | E : negb _ = false |- _ => apply negb_false_iff in E
                end.
    all: exists k; split; [reflexivity|];
      repeat (split; [first [assumption | reflexivity]|]).
    all: repeat match goal with
                | E : key.Matches _ _ = _ |- _ => rewrite E; clear E
                end; reflexivity.
  - intros (k & -> & Hl & He & Hs & Hm).
    cbn [category.Update]. rewrite Hl, He, Hs. cbn [negb].
    destruct (key.Matches k (category.SelectFeed (category.keymap m))); [reflexivity|].
    destruct (key.Matches k (category.NewFeed (category.keymap m))); [discriminate|].
    destruct (key.Matches k (category.EditFeed (category.keymap m))); [reflexivity|].
    destruct (key.Matches k (category.DeleteFeed (category.keymap m)));
      [reflexivity | discriminate].
Qed.

(** Three feeds and the index 5: Select and Delete panic. *)
Lemma category_Update_panics_iff_witness :
  @category.Update idle_list (category_with ["a"; "b"; "c"] 5) (KeyMsg "enter") = Panic /\
  @category.Update idle_list (category_with ["a"; "b"; "c"] 5) (KeyMsg "d") = Panic.
Proof.
  split.
  - apply (proj2 (@category_Update_panics_iff idle_list
                    (category_with ["a"; "b"; "c"] 5) (KeyMsg "enter"))).
    exists "enter". repeat split.
  - apply (proj2 (@category_Update_panics_iff idle_list
                    (category_with ["a"; "b"; "c"] 5) (KeyMsg "d"))).
    exists "d". repeat split.
Defined.

(** X14.  Delete keeps the cursor of a category tab on an item.  With
    [n] items and the one at [i] selected, the index after Delete is [i]
    itself, or 0 when [i] was the last item; the items are the same, so
    there is still a selected item, and when [n >= 2] the index is below
    [n - 1], inside the list that remains once the item is removed. *)
Theorem category_delete_keeps_cursor_inside {L : simplelist.Behaviour}
        (m : category.Model) (k : string) (it : Item) :
  category.loaded m = true ->
  category.keymap m = category.DefaultKeymap ->
  k = "d" \/ k = "ctrl+d" ->
  simplelist.SelectedItem (category.list m) = Some it ->
  let n := len (simplelist.Items (category.list m)) in
  let i := simplelist.Index (category.list m) in
  exists m',
    category.Update m (KeyMsg k) = Ok (m', DeleteItem backend.Feed (FilterValue it)) /\
    simplelist.Items (category.list m') = simplelist.Items (category.list m) /\
    simplelist.Index (category.list m') = (if i =? n - 1 then 0 else i) /\
    (2 <= n -> simplelist.Index (category.list m') < n - 1) /\
    exists it', simplelist.SelectedItem (category.list m') = Some it'.
Proof.
  intros Hl Hk Hkey Hs n i.
  destruct (simplelist_SelectedItem_Some _ Hs) as [He Hi]. fold n i in Hi.
  eexists. split; [apply category_Update_delete; assumption|].
  fold n i. cbn [category.list category.set_list].
  assert (Hidx : (if n =? 1 then 0 else Z.rem i (n - 1))
                 = (if i =? n - 1 then 0 else i)).
  { destruct (Z.eqb_spec n 1) as [E | E].
    - destruct (Z.eqb_spec i (n - 1)); lia.
    - rewrite Z.rem_mod_nonneg by lia.
      destruct (Z.eqb_spec i (n - 1)) as [E' | E'].
      + rewrite E'. apply Z_mod_same_full.
      + apply Z.mod_small. lia. }
  rewrite Hidx.
  assert (Hin : 0 <= (if i =? n - 1 then 0 else i) < n).
  { destruct (Z.eqb_spec i (n - 1)); lia. }
  split; [reflexivity|]. split; [reflexivity|].
  split.
  - intros Hn. cbn. destruct (Z.eqb_spec i (n - 1)); lia.
  - clear Hidx. revert Hin. generalize (if i =? n - 1 then 0 else i). intros j Hin.
    unfold simplelist.SelectedItem. cbn.
    fold (simplelist.Items (category.list m)).
    fold (len (simplelist.Items (category.list m))). fold n.
    destruct (j <? 0) eqn:E1; [apply Z.ltb_lt in E1; lia|].
    destruct (n <=? j) eqn:E2; [apply Z.leb_le in E2; lia|].
    cbn [orb].
    destruct (nth_error (simplelist.Items (category.list m)) (Z.to_nat j))
      as [it'|] eqn:E.
    + exists it'. reflexivity.
    + apply nth_error_None in E. unfold n, len in Hin. lia.
Qed.

(** Three feeds: Delete on the last one moves the cursor to the first,
    Delete on the first one leaves it there. *)
Lemma category_delete_keeps_cursor_inside_witness :
  (exists m',
     @category.Update idle_list (category_with ["a"; "b"; "c"] 2) (KeyMsg "d")
     = Ok (m', DeleteItem backend.Feed "c") /\
     simplelist.Index (category.list m') = 0 /\
     exists it', simplelist.SelectedItem (category.list m') = Some it') /\
  (exists m',
     @category.Update idle_list (category_with ["a"; "b"; "c"] 0) (KeyMsg "ctrl+d")
     = Ok (m', DeleteItem backend.Feed "a") /\
     simplelist.Index (category.list m') = 0 /\
     exists it', simplelist.SelectedItem (category.list m') = Some it').
Proof.
  split.
  - destruct (@category_delete_keeps_cursor_inside idle_list
                (category_with ["a"; "b"; "c"] 2) "d" (item_of "c")
                eq_refl eq_refl (or_introl eq_refl) eq_refl)
      as (m' & Hu & _ & Hi & _ & Hsel).
    exists m'. auto.
  - destruct (@category_delete_keeps_cursor_inside idle_list
                (category_with ["a"; "b"; "c"] 0) "ctrl+d" (item_of "a")
                eq_refl eq_refl (or_intror eq_refl) eq_refl)
      as (m' & Hu & _ & Hi & _ & Hsel).
    exists m'. auto.
Defined.

(** X15.  The requests of a loaded category tab under the default keymap,
    each returned with the tab as it was.  New ("n", "ctrl+n") asks for a
    new feed under the path of the title alone, whether the list is empty
    or not.  With an item selected, Select ("enter") asks for a feed tab
    named after the item, and Edit ("e", "ctrl+e") asks to edit the feed
    at the path of the title and the item's name, with the name and the
    description as the fields. *)
Theorem category_requests {L : simplelist.Behaviour} (m : category.Model) :
  category.loaded m = true ->
  category.keymap m = category.DefaultKeymap ->
  (forall k, k = "n" \/ k = "ctrl+n" ->
     category.Update m (KeyMsg k)
     = Ok (m, NewItem backend.Feed true [category.title m] [])) /\
  (forall it, simplelist.SelectedItem (category.list m) = Some it ->
     category.Update m (KeyMsg "enter")
     = Ok (m, NewTab (tab.mkNewTabMessage (FilterValue it) tab.Feed)) /\
     forall k, k = "e" \/ k = "ctrl+e" ->
       category.Update m (KeyMsg k)
       = Ok (m, NewItem backend.Feed false [category.title m; FilterValue it]
                        [FilterValue it; Description it])).
Proof.
  intros Hl Hk. split.
  - intros k Hkey. cbn [category.Update]. rewrite Hl, Hk.
    destruct Hkey as [-> | ->]; reflexivity.
  - intros it Hs. destruct (simplelist_SelectedItem_Some _ Hs) as [He _].
    split.
    + cbn [category.Update]. rewrite Hl, Hk, He, Hs. reflexivity.
    + intros k Hkey. cbn [category.Update]. rewrite Hl, Hk, He, Hs.
      destruct Hkey as [-> | ->]; reflexivity.
Qed.

Lemma category_requests_witness :
  @category.Update idle_list (category_with [] 0) (KeyMsg "ctrl+n")
  = Ok (category_with [] 0, NewItem backend.Feed true ["News"] []) /\
  @category.Update idle_list (category_with ["a"; "b"] 1) (KeyMsg "enter")
  = Ok (category_with ["a"; "b"] 1, NewTab (tab.mkNewTabMessage "b" tab.Feed)) /\
  @category.Update idle_list (category_with ["a"; "b"] 1) (KeyMsg "e")
  = Ok (category_with ["a"; "b"] 1,
        NewItem backend.Feed false ["News"; "b"] ["b"; ""]).
Proof.
  split; [|split].
  - apply (proj1 (@category_requests idle_list (category_with [] 0) eq_refl eq_refl)).
    right. reflexivity.
  - apply (proj2 (@category_requests idle_list (category_with ["a"; "b"] 1)
                    eq_refl eq_refl) (item_of "b") eq_refl).
  - apply (proj2 (@category_requests idle_list (category_with ["a"; "b"] 1)
                    eq_refl eq_refl) (item_of "b") eq_refl).
    left. reflexivity.
Defined.

(** X16.  A key outside the four bindings that the category tab handles
    (also "c", "ctrl+w" and "tab", which the tab leaves to its container):
    when the list knows an item by that key, the tab asks for a feed tab
    named after the item and stays as it was, also on an empty or
    unselected list; when it knows none, the key goes to the list widget. *)
Theorem category_shortcut_key {L : simplelist.Behaviour}
        (m : category.Model) (k : string) :
  category.loaded m = true ->
  category.keymap m = category.DefaultKeymap ->
  ~ In k ["enter"; "n"; "ctrl+n"; "e"; "ctrl+e"; "d"; "ctrl+d"] ->
  (forall it, simplelist.GetItem (category.list m) k = Some it ->
     category.Update m (KeyMsg k)
     = Ok (m, NewTab (tab.mkNewTabMessage (FilterValue it) tab.Feed))) /\
  (simplelist.GetItem (category.list m) k = None ->
   category.Update m (KeyMsg k)
   = Ok (category.set_list m (fst (simplelist.Update (category.list m) (KeyMsg k))),
         snd (simplelist.Update (category.list m) (KeyMsg k)))).
Proof.
  intros Hl Hk Hn.
  assert (E : category.Update m (KeyMsg k) =
              match simplelist.GetItem (category.list m) k with
              | Some item => Ok (m, tabcmd.NewTab (FilterValue item) tab.Feed)
              | None => category.updateList m (KeyMsg k)
              end).
  { cbn [category.Update]. rewrite Hl, Hk. cbn [negb].
    destruct (category_default_Matches k) as (-> & -> & -> & ->).
    cbn in Hn.
    repeat match goal with
           | |- context [String.eqb k ?s] =>
               destruct (String.eqb_spec k s); [exfalso; apply Hn; subst; tauto|]
           end.
    reflexivity. }
  rewrite E. split.
  - intros it ->. reflexivity.
  - intros ->. unfold category.updateList.
    destruct (simplelist.Update (category.list m) (KeyMsg k)). reflexivity.
Qed.

(** The key "b" where the list knows the feed "b" by its name, and the key
    "x", which it does not know; the same on the key "c". *)
Lemma category_shortcut_key_witness :
  @category.Update shortcut_list (category_with ["a"; "b"] 0) (KeyMsg "b")
  = Ok (category_with ["a"; "b"] 0, NewTab (tab.mkNewTabMessage "b" tab.Feed)) /\
  @category.Update shortcut_list (category_with ["a"; "b"] 0) (KeyMsg "x")
  = Ok (category_with ["a"; "b"] 0, nil) /\
  @category.Update shortcut_list (category_with ["a"; "c"] 0) (KeyMsg "c")
  = Ok (category_with ["a"; "c"] 0, NewTab (tab.mkNewTabMessage "c" tab.Feed)).
Proof.
  split; [|split].
  - apply (proj1 (@category_shortcut_key shortcut_list (category_with ["a"; "b"] 0) "b"
                    eq_refl eq_refl
                    ltac:(cbn; intros H; repeat (destruct H as [H | H]; [discriminate H|]);
                          exact H))
             (item_of "b") eq_refl).
  - apply (proj2 (@category_shortcut_key shortcut_list (category_with ["a"; "b"] 0) "x"
                    eq_refl eq_refl
                    ltac:(cbn; intros H; repeat (destruct H as [H | H]; [discriminate H|]);
                          exact H))
             eq_refl).
  - apply (proj1 (@category_shortcut_key shortcut_list (category_with ["a"; "c"] 0) "c"
                    eq_refl eq_refl
                    ltac:(cbn; intros H; repeat (destruct H as [H | H]; [discriminate H|]);
                          exact H))
             (item_of "c") eq_refl).
Defined.



(** X18.  While a category tab is loading, every key message returns the
    tab as it is and no command; only a fetch-success event makes it
    loaded. *)
Theorem category_loading_ignores_keys {L : simplelist.Behaviour} (m : category.Model) :
  category.loaded m = false ->
  (forall k, category.Update m (KeyMsg k) = Ok (m, nil)) /\
  (forall msg m' cmd,
     category.Update m msg = Ok (m', cmd) -> category.loaded m' = true ->
     exists f, msg = FetchSuccessMessage f).
Proof.
  intros Hl. split.
  - intros k. cbn [category.Update]. rewrite Hl. reflexivity.
  - intros msg m' cmd Hu Hl'. destruct msg as [f | k | tag].
    + exists f. reflexivity.
    + cbn [category.Update] in Hu. rewrite Hl in Hu. cbn in Hu. inv_ok. congruence.
    + cbn [category.Update] in Hu. apply category_updateList_fields in Hu.
      destruct Hu as (E & _). congruence.
Qed.

Lemma category_loading_ignores_keys_witness :
  @category.Update shortcut_list category_news (KeyMsg "n") = Ok (category_news, nil) /\
  @category.Update shortcut_list category_news (KeyMsg "enter") = Ok (category_news, nil).
Proof.
  split; apply (@category_loading_ignores_keys shortcut_list category_news eq_refl).
Defined.

(** X19.  No key is bound twice in the default keymap: whatever the key,
    at most one of the six bindings matches it, so the order of the cases
    in [Update] decides nothing. *)
Theorem category_DefaultKeymap_no_conflict (k : string) :
  (List.length (matching category.DefaultKeymap k) <= 1)%nat.
Proof.
  unfold matching, key.Matches. cbn.
  rewrite !andb_true_r, !orb_false_r.
  repeat match goal with
         | |- context [String.eqb k ?s] =>
             destruct (String.eqb_spec k s); [subst k; cbn; lia|]
         end.
  cbn. lia.
Qed.
